(** * LLTF wrapper: a shallow embedding of [lltf_wrapper.py]

    The Python class [LLTF] wraps the vendor library [PE_Filter_SDK.dll].
    Its methods mutate the fields of [self], print, emit warnings, call
    the vendor library and raise exceptions.  They are embedded here as
    computations over an explicit world (the object, the device behind
    the vendor library, and the logs of what was printed, warned and
    called), in a state monad in which a raised exception keeps the
    mutations made before it, as in Python.

    Python floats are IEEE binary64 numbers: they are the kernel's
    primitive floats.  Python ints are [Z]. *)

From Stdlib Require Import ZArith String List Bool Lia Sorted.
From Stdlib Require Import Floats.PrimFloat.
Import ListNotations.
Local Open Scope string_scope.
Local Open Scope Z_scope.
Local Open Scope list_scope.

(** ** Formatted text

    An f-string is kept as the list of its literal pieces and of the
    values interpolated in it, in order; the decimal rendering of a
    number by [str] is not modelled. *)

Inductive fragment : Type :=
| Lit (s : string)             (* literal text of the f-string *)
| FStr (s : string)            (* an interpolated str, or str(e) of an exception *)
| FInt (z : Z)                 (* an interpolated int *)
| FFloat (x : float)           (* an interpolated float *)
| FStrList (l : list string).  (* an interpolated list of str *)

Definition fstring : Type := list fragment.

(** [sep.join(parts)] *)
Fixpoint join (sep : fstring) (parts : list fstring) {struct parts} : fstring :=
  match parts with
  | [] => []
  | p :: rest =>
      match rest with
      | [] => p
      | _ :: _ => p ++ sep ++ join sep rest
      end
  end.

(** ** Exceptions

    The module raises one exception class, [LLTFError], told apart only
    by its message.  The embedding tags every [raise LLTFError(...)]
    with the error category of its raise site.  The other exceptions
    are Python's own: [AttributeError] for an attribute looked up on
    [None], [TypeError] for a call that does not fit the signature,
    [ET_ParseError] for [xml.etree.ElementTree.ParseError], and
    [Exception] for any other exception of library code, with its
    text. *)

Inductive ErrorCategory : Type :=
| ConfigNotFound
| ConfigMalformed
| DllLoadFailure
| NotInitialized
| InvalidGrating
| UnsupportedWavelength
| NativeStatusFailure (status : Z).

Inductive exn : Type :=
| LLTFError (category : ErrorCategory) (message : fstring)
| AttributeError (message : fstring)
| TypeError (message : fstring)
| ET_ParseError (e : string)
| Exception (e : string).

Definition is_LLTFError (e : exn) : bool :=
  match e with LLTFError _ _ => true | _ => false end.

(** ** The object *)

(** One entry of [self.grating_ranges]: the dict with keys ['index'],
    ['regular_range'] and ['extended_range']. *)
Record grating_info : Type := mk_grating_info {
  index : Z;
  regular_range : float * float;
  extended_range : float * float
}.

(** The value of [self.dll] once loaded: the [ctypes.CDLL] object. *)
Inductive CDLL : Type := PE_Filter_SDK_dll.

(** The attributes of an [LLTF] instance.  [handle] is [None] or a
    [ctypes.c_void_p] holding an address. *)
Record LLTF : Type := mk_LLTF {
  dll : option CDLL;
  handle : option Z;
  xml_path : option string;
  grating_ranges : list grating_info;
  system_name : option string;
  simulate_mode : bool;
  simulated_wavelength : float
}.

(** PE_STATUS constants from PE_Filter.h *)
Definition PE_SUCCESS : Z := 0.
Definition PE_INVALID_HANDLE : Z := 1.
Definition PE_FAILURE : Z := 2.
Definition PE_MISSING_CONFIGFILE : Z := 3.
Definition PE_INVALID_CONFIGURATION : Z := 4.
Definition PE_INVALID_WAVELENGTH : Z := 5.
Definition PE_MISSSING_HARMONIC_FILTER : Z := 6.
Definition PE_INVALID_FILTER : Z := 7.
Definition PE_UNKNOWN : Z := 8.
Definition PE_INVALID_GRATING : Z := 9.
Definition PE_INVALID_BUFFER : Z := 10.
Definition PE_INVALID_BUFFER_SIZE : Z := 11.
Definition PE_UNSUPPORTED_CONFIGURATION : Z := 12.
Definition PE_NO_FILTER_CONNECTED : Z := 13.

(** [lo <= x <= hi] on floats: Python's chained comparison, false as
    soon as one side is a NaN. *)
Definition between (lo x hi : float) : bool :=
  (PrimFloat.leb lo x && PrimFloat.leb x hi)%bool.

Definition in_regular_range (wavelength : float) (grating : grating_info) : bool :=
  let '(reg_min, reg_max) := regular_range grating in
  between reg_min wavelength reg_max.

Definition in_extended_range (wavelength : float) (grating : grating_info) : bool :=
  let '(ext_min, ext_max) := extended_range grating in
  between ext_min wavelength ext_max.

(** ** The configuration file, as [xml.etree.ElementTree] shows it *)

(** [float(elem.find(tag).text)]: the number, or the text of the
    exception when the child is missing or is not a number. *)
Inductive leaf : Type :=
| LeafValue (x : float)
| LeafError (e : string).

Record RangeElem : Type := mk_RangeElem {
  RegLower : leaf;
  RegUpper : leaf;
  ExtLower : leaf;
  ExtUpper : leaf
}.

(** A [Grating] element: its [Range] child when it has one. *)
Record GratingElem : Type := mk_GratingElem {
  Range : option RangeElem
}.

(** What the wrapper reads of a parsed document: the [Id] attribute of
    the first [Component] of type [Filter] (when there is such a
    component, and when it has the attribute), and the [Grating]
    elements in document order. *)
Record XmlDoc : Type := mk_XmlDoc {
  FilterComponent : option (option string);
  Gratings : list GratingElem
}.

(** The outcome of [ET.parse(path)]. *)
Inductive ParseOutcome : Type :=
| Parsed (doc : XmlDoc)
| ParseError (e : string)     (* ET.ParseError *)
| OtherError (e : string).    (* any other exception, e.g. an unreadable file *)

(** ** The host: file system, XML parser and vendor library

    Everything outside the wrapper is given by a [Host].  The vendor
    library is a transition system over the state [Dev] of the library
    and of the instrument behind it: each entry point takes its
    arguments and the current state and gives back what it returns,
    what it writes through a [byref] argument, and the next state.  No
    behaviour is assumed of it. *)

Record Host (Dev : Type) : Type := mk_Host {
  (* glob.glob("xml_files/*.xml") *)
  glob_xml_files : list string;
  (* os.path.exists(path) *)
  path_exists : string -> bool;
  (* ET.parse(path) *)
  ET_parse : string -> ParseOutcome;
  (* ct.CDLL("PE_Filter_SDK.dll", "PE_Filter"): None when the library
     loads, the text of the OSError otherwise *)
  load_CDLL : Dev -> option string;
  (* PE_Create(path, byref(handle)): status and the address written *)
  PE_Create : string -> Z -> Dev -> (Z * Z) * Dev;
  PE_Open : Z -> string -> Dev -> Z * Dev;
  PE_GetSystemCount : Z -> Dev -> Z * Dev;
  (* PE_GetWavelength(handle, byref(wavelength)): status and the double written *)
  PE_GetWavelength : Z -> float -> Dev -> (Z * float) * Dev;
  PE_SetWavelengthOnGrating : Z -> Z -> float -> Dev -> Z * Dev;
  PE_Close : Z -> Dev -> Z * Dev;
  PE_Destroy : Z -> Dev -> Dev
}.

Arguments glob_xml_files {Dev}.
Arguments path_exists {Dev}.
Arguments ET_parse {Dev}.
Arguments load_CDLL {Dev}.
Arguments PE_Create {Dev}.
Arguments PE_Open {Dev}.
Arguments PE_GetSystemCount {Dev}.
Arguments PE_GetWavelength {Dev}.
Arguments PE_SetWavelengthOnGrating {Dev}.
Arguments PE_Close {Dev}.
Arguments PE_Destroy {Dev}.

(** The calls made into the vendor library, as they are logged. *)
Inductive native_call : Type :=
| Call_PE_Create (path : string)
| Call_PE_Open (h : Z) (name : string)
| Call_PE_GetSystemCount (h : Z)
| Call_PE_GetWavelength (h : Z)
| Call_PE_SetWavelengthOnGrating (h : Z) (grating : Z) (wavelength : float)
| Call_PE_Close (h : Z)
| Call_PE_Destroy (h : Z).

(** The outcome of a computation: a value, or a raised exception. *)
Inductive Result (A : Type) : Type :=
| Return (a : A)
| Raise (e : exn).

Arguments Return {A}.
Arguments Raise {A}.

(** [str(e)] *)
Definition str_exn (e : exn) : fstring :=
  match e with
  | LLTFError _ message => message
  | AttributeError message => message
  | TypeError message => message
  | ET_ParseError e => [FStr e]
  | Exception e => [FStr e]
  end.

Module World.

(** The object, the device, and the three logs, oldest entry first:
    calls into the vendor library, lines printed, warnings emitted. *)
Record t (Dev : Type) : Type := mk {
  self : LLTF;
  device : Dev;
  native_calls : list native_call;
  stdout : list fstring;
  warnings : list fstring
}.

Arguments mk {Dev}.
Arguments self {Dev}.
Arguments device {Dev}.
Arguments native_calls {Dev}.
Arguments stdout {Dev}.
Arguments warnings {Dev}.

Definition with_self {Dev} (w : t Dev) (s : LLTF) : t Dev :=
  mk s (device w) (native_calls w) (stdout w) (warnings w).

Definition with_device {Dev} (w : t Dev) (d : Dev) (c : native_call) : t Dev :=
  mk (self w) d (native_calls w ++ [c]) (stdout w) (warnings w).

Definition with_stdout {Dev} (w : t Dev) (line : fstring) : t Dev :=
  mk (self w) (device w) (native_calls w) (stdout w ++ [line]) (warnings w).

Definition with_warning {Dev} (w : t Dev) (message : fstring) : t Dev :=
  mk (self w) (device w) (native_calls w) (stdout w) (warnings w ++ [message]).

End World.

(** Assignments to the attributes of [self]. *)
Definition set_dll (s : LLTF) (v : option CDLL) : LLTF :=
  mk_LLTF v (handle s) (xml_path s) (grating_ranges s) (system_name s)
          (simulate_mode s) (simulated_wavelength s).

Definition set_handle (s : LLTF) (v : option Z) : LLTF :=
  mk_LLTF (dll s) v (xml_path s) (grating_ranges s) (system_name s)
          (simulate_mode s) (simulated_wavelength s).

Definition set_xml_path (s : LLTF) (v : option string) : LLTF :=
  mk_LLTF (dll s) (handle s) v (grating_ranges s) (system_name s)
          (simulate_mode s) (simulated_wavelength s).

Definition set_grating_ranges (s : LLTF) (v : list grating_info) : LLTF :=
  mk_LLTF (dll s) (handle s) (xml_path s) v (system_name s)
          (simulate_mode s) (simulated_wavelength s).

Definition set_system_name (s : LLTF) (v : option string) : LLTF :=
  mk_LLTF (dll s) (handle s) (xml_path s) (grating_ranges s) v
          (simulate_mode s) (simulated_wavelength s).

Definition set_simulate_mode (s : LLTF) (v : bool) : LLTF :=
  mk_LLTF (dll s) (handle s) (xml_path s) (grating_ranges s) (system_name s)
          v (simulated_wavelength s).

Definition set_simulated_wavelength (s : LLTF) (v : float) : LLTF :=
  mk_LLTF (dll s) (handle s) (xml_path s) (grating_ranges s) (system_name s)
          (simulate_mode s) v.

(** ** The monad of methods *)

Definition M (Dev A : Type) : Type := World.t Dev -> Result A * World.t Dev.

Definition ret {Dev A} (a : A) : M Dev A := fun w => (Return a, w).

Definition bind {Dev A B} (c : M Dev A) (k : A -> M Dev B) : M Dev B :=
  fun w =>
    match c w with
    | (Return a, w') => k a w'
    | (Raise e, w') => (Raise e, w')
    end.

Definition raise {Dev A} (e : exn) : M Dev A := fun w => (Raise e, w).

(** [try: c  except ... as e: handler(e)]: [catches] tells the
    exceptions that one of the except clauses names, and [handler]
    runs the clause that took the exception. *)
Definition try_except {Dev A} (c : M Dev A) (catches : exn -> bool)
           (handler : exn -> M Dev A) : M Dev A :=
  fun w =>
    match c w with
    | (Return a, w') => (Return a, w')
    | (Raise e, w') => if catches e then handler e w' else (Raise e, w')
    end.

Declare Scope py_scope.
Delimit Scope py_scope with py.
Notation "x <- c ;; k" := (bind c (fun x => k))
  (at level 100, c at next level, right associativity) : py_scope.
Notation "c ;; k" := (bind c (fun _ => k))
  (at level 100, right associativity) : py_scope.
Local Open Scope py_scope.

Definition get_self {Dev} : M Dev LLTF := fun w => (Return (World.self w), w).

Definition update_self {Dev} (f : LLTF -> LLTF) : M Dev unit :=
  fun w => (Return tt, World.with_self w (f (World.self w))).

(** [print(line)] *)
Definition print {Dev} (line : fstring) : M Dev unit :=
  fun w => (Return tt, World.with_stdout w line).

(** [warnings.warn(message)] *)
Definition warn {Dev} (message : fstring) : M Dev unit :=
  fun w => (Return tt, World.with_warning w message).

(** ** The methods of [LLTF] *)

Section Methods.

Variable Dev : Type.
Variable host : Host Dev.

(** A call [self.dll.f(...)]: [AttributeError] when [self.dll] is
    [None]; otherwise the vendor library runs and the call is logged. *)
Definition dll_call {A} (f : string) (c : native_call) (run : Dev -> A * Dev) : M Dev A :=
  fun w =>
    match dll (World.self w) with
    | None =>
        (Raise (AttributeError
                  [Lit "'NoneType' object has no attribute '"; Lit f; Lit "'"]), w)
    | Some _ =>
        let '(a, d) := run (World.device w) in
        (Return a, World.with_device w d c)
    end.

(** The fields assigned by [__init__] before the configuration is read. *)
Definition new_LLTF (xml_config_path : option string) : LLTF :=
  {| dll := None;
     handle := None;
     xml_path := xml_config_path;
     grating_ranges := [];
     system_name := None;
     simulate_mode := false;
     simulated_wavelength := 550.0%float |}.

(** [float(range_elem.find(tag).text)] *)
Definition float_of_leaf (l : leaf) : M Dev float :=
  match l with
  | LeafValue x => ret x
  | LeafError e => raise (Exception e)
  end.

(** The loop [for i, grating in enumerate(gratings)] of
    [_load_xml_config]. *)
Fixpoint load_gratings (i : Z) (gratings : list GratingElem) : M Dev unit :=
  match gratings with
  | [] => ret tt
  | grating :: rest =>
      match Range grating with
      | Some range_elem =>
          reg_lower <- float_of_leaf (RegLower range_elem) ;;
          reg_upper <- float_of_leaf (RegUpper range_elem) ;;
          ext_lower <- float_of_leaf (ExtLower range_elem) ;;
          ext_upper <- float_of_leaf (ExtUpper range_elem) ;;
          let grating_info :=
            {| index := i;
               regular_range := (reg_lower, reg_upper);
               extended_range := (ext_lower, ext_upper) |} in
          update_self (fun s => set_grating_ranges s (grating_ranges s ++ [grating_info]))
      | None => ret tt
      end ;;
      load_gratings (i + 1) rest
  end.

Definition _load_xml_config : M Dev unit :=
  s <- get_self ;;
  path <- match xml_path s with
          | None =>
              let xml_files := glob_xml_files host in
              match xml_files with
              | [] =>
                  raise (LLTFError ConfigNotFound
                           [Lit "No XML configuration files found. Please provide xml_config_path or place XML file in xml_files directory."])
              | first :: _ :: _ =>
                  warn [Lit "Multiple XML files found: "; FStrList xml_files;
                        Lit ". Using "; FStr first] ;;
                  update_self (fun s => set_xml_path s (Some first)) ;;
                  ret first
              | [first] =>
                  update_self (fun s => set_xml_path s (Some first)) ;;
                  ret first
              end
          | Some path => ret path
          end ;;
  if negb (path_exists host path) then
    raise (LLTFError ConfigNotFound
             [Lit "XML configuration file not found: "; FStr path])
  else
    try_except
      (match ET_parse host path with
       | ParseError e => raise (ET_ParseError e)
       | OtherError e => raise (Exception e)
       | Parsed root =>
           match FilterComponent root with
           | Some Id => update_self (fun s => set_system_name s Id)
           | None =>
               raise (LLTFError ConfigMalformed
                        [Lit "Could not find Filter component in XML configuration"])
           end ;;
           load_gratings 0 (Gratings root)
       end)
      (fun _ => true)
      (fun e =>
         match e with
         | ET_ParseError _ =>
             raise (LLTFError ConfigMalformed
                      (Lit "Failed to parse XML configuration: " :: str_exn e))
         | _ =>
             raise (LLTFError ConfigMalformed
                      (Lit "Error reading XML configuration: " :: str_exn e))
         end).

Definition __init__ (xml_config_path : option string) : M Dev unit :=
  update_self (fun _ => new_LLTF xml_config_path) ;;
  _load_xml_config.

Definition _load_dll : M Dev unit :=
  s <- get_self ;;
  if simulate_mode s then ret tt
  else
    fun w =>
      match load_CDLL host (World.device w) with
      | None => update_self (fun s => set_dll s (Some PE_Filter_SDK_dll)) w
      | Some e =>
          raise (LLTFError DllLoadFailure
                   [Lit "Failed to load PE_Filter_SDK.dll: "; FStr e]) w
      end.

Definition error_descriptions (status : Z) : option string :=
  if status =? PE_INVALID_HANDLE then Some "Invalid handle"
  else if status =? PE_FAILURE then Some "Instrument communication failure"
  else if status =? PE_MISSING_CONFIGFILE then Some "Configuration file missing"
  else if status =? PE_INVALID_CONFIGURATION then Some "Configuration file corrupted"
  else if status =? PE_INVALID_WAVELENGTH then Some "Wavelength out of bounds"
  else if status =? PE_INVALID_GRATING then Some "Invalid grating specified"
  else if status =? PE_NO_FILTER_CONNECTED then Some "No filter connected"
  else None.

Definition _check_status (status : Z) (operation : fstring) : M Dev unit :=
  if negb (status =? PE_SUCCESS) then
    let error_msg := operation ++ [Lit " failed with status "; FInt status] in
    let error_msg :=
      match error_descriptions status with
      | Some description => error_msg ++ [Lit ": "; Lit description]
      | None => error_msg
      end in
    raise (LLTFError (NativeStatusFailure status) error_msg)
  else ret tt.

(** The first loop of [_select_grating_for_wavelength]; [otherwise]
    is the code after the loop. *)
Fixpoint for_regular_range (wavelength : float) (gratings : list grating_info)
         (otherwise : M Dev Z) : M Dev Z :=
  match gratings with
  | [] => otherwise
  | grating :: rest =>
      let '(reg_min, reg_max) := regular_range grating in
      if between reg_min wavelength reg_max then ret (index grating)
      else for_regular_range wavelength rest otherwise
  end.

(** The second loop: the extended ranges, with the warning. *)
Fixpoint for_extended_range (wavelength : float) (gratings : list grating_info)
         (otherwise : M Dev Z) : M Dev Z :=
  match gratings with
  | [] => otherwise
  | grating :: rest =>
      let '(ext_min, ext_max) := extended_range grating in
      if between ext_min wavelength ext_max then
        warn [Lit "Wavelength "; FFloat wavelength;
              Lit " nm is in extended range for grating "; FInt (index grating)] ;;
        ret (index grating)
      else for_extended_range wavelength rest otherwise
  end.

(** One entry of [ranges_str]. *)
Definition range_str (grating : grating_info) : fstring :=
  let '(reg_min, reg_max) := regular_range grating in
  [Lit "Grating "; FInt (index grating); Lit ": ";
   FFloat reg_min; Lit "-"; FFloat reg_max; Lit " nm"].

Definition unsupported_message (wavelength : float) (gratings : list grating_info)
  : fstring :=
  let ranges_str := map range_str gratings in
  [Lit "Wavelength "; FFloat wavelength; Lit " nm not supported. Available ranges: "]
    ++ join [Lit ", "] ranges_str.

Definition _select_grating_for_wavelength (wavelength : float) : M Dev Z :=
  s <- get_self ;;
  for_regular_range wavelength (grating_ranges s)
    (for_extended_range wavelength (grating_ranges s)
       (raise (LLTFError UnsupportedWavelength
                 (unsupported_message wavelength (grating_ranges s))))).

Definition initialize (simulate : bool) : M Dev unit :=
  update_self (fun s => set_simulate_mode s simulate) ;;
  if simulate then
    update_self (fun s => set_handle s (Some 1)) ;;
    print [Lit "LLTF: Initialized in simulation mode"]
  else
    _load_dll ;;
    update_self (fun s => set_handle s (Some 0)) ;;
    s <- get_self ;;
    match xml_path s with
    | None => raise (AttributeError [Lit "'NoneType' object has no attribute 'encode'"])
    | Some xml_path_c =>
        r <- dll_call "PE_Create" (Call_PE_Create xml_path_c)
                      (PE_Create host xml_path_c 0) ;;
        let '(status, address) := r in
        update_self (fun s => set_handle s (Some address)) ;;
        _check_status status [Lit "PE_Create"] ;;
        match system_name s with
        | None | Some "" => ret tt
        | Some system_name_c =>
            status <- dll_call "PE_Open" (Call_PE_Open address system_name_c)
                               (PE_Open host address system_name_c) ;;
            _check_status status [Lit "PE_Open"]
        end
    end.

Definition get_connected_device_count : M Dev Z :=
  s <- get_self ;;
  if simulate_mode s then ret 1
  else
    match handle s with
    | None =>
        raise (LLTFError NotInitialized
                 [Lit "Device not initialized. Call initialize() first."])
    | Some h =>
        dll_call "PE_GetSystemCount" (Call_PE_GetSystemCount h)
                 (PE_GetSystemCount host h)
    end.

Definition get_wavelength : M Dev float :=
  s <- get_self ;;
  if simulate_mode s then ret (simulated_wavelength s)
  else
    match handle s with
    | None =>
        raise (LLTFError NotInitialized
                 [Lit "Device not initialized. Call initialize() first."])
    | Some h =>
        r <- dll_call "PE_GetWavelength" (Call_PE_GetWavelength h)
                      (PE_GetWavelength host h 0%float) ;;
        let '(status, wavelength) := r in
        _check_status status [Lit "PE_GetWavelength"] ;;
        ret wavelength
    end.

Definition set_wavelength (wavelength : float) (grating : option Z) : M Dev unit :=
  s <- get_self ;;
  match handle s with
  | None =>
      raise (LLTFError NotInitialized
               [Lit "Device not initialized. Call initialize() first."])
  | Some h =>
      grating <- match grating with
                 | None => _select_grating_for_wavelength wavelength
                 | Some g => ret g
                 end ;;
      if negb ((grating =? 0) || (grating =? 1)) then
        raise (LLTFError InvalidGrating
                 [Lit "Invalid grating index: "; FInt grating; Lit ". Must be 0 or 1."])
      else if simulate_mode s then
        update_self (fun s => set_simulated_wavelength s wavelength) ;;
        print [Lit "LLTF: Set wavelength to "; FFloat wavelength; Lit " nm (simulation)"]
      else
        status <- dll_call "PE_SetWavelengthOnGrating"
                           (Call_PE_SetWavelengthOnGrating h grating wavelength)
                           (PE_SetWavelengthOnGrating host h grating wavelength) ;;
        _check_status status
          [Lit "PE_SetWavelengthOnGrating(grating="; FInt grating; Lit ")"]
  end.

Definition get_grating_ranges : M Dev (list grating_info) :=
  s <- get_self ;;
  ret (grating_ranges s).

Definition close : M Dev unit :=
  s <- get_self ;;
  if simulate_mode s then
    print [Lit "LLTF: Closed simulation connection"]
  else
    match handle s with
    | Some h =>
        status <- dll_call "PE_Close" (Call_PE_Close h) (PE_Close host h) ;;
        try_except (_check_status status [Lit "PE_Close"])
                   is_LLTFError
                   (fun _ => ret tt) ;;
        match dll s with
        | Some _ =>
            dll_call "PE_Destroy" (Call_PE_Destroy h)
                     (fun d => (tt, PE_Destroy host h d))
        | None => ret tt
        end ;;
        update_self (fun s => set_handle s None)
    | None => ret tt
    end.

Definition __enter__ : M Dev unit := ret tt.

Definition __exit__ : M Dev unit := close.

End Methods.

Arguments dll_call {Dev A}.
Arguments float_of_leaf {Dev}.
Arguments load_gratings {Dev}.
Arguments _load_xml_config {Dev}.
Arguments __init__ {Dev}.
Arguments _load_dll {Dev}.
Arguments _check_status {Dev}.
Arguments for_regular_range {Dev}.
Arguments for_extended_range {Dev}.
Arguments _select_grating_for_wavelength {Dev}.
Arguments initialize {Dev}.
Arguments get_connected_device_count {Dev}.
Arguments get_wavelength {Dev}.
Arguments set_wavelength {Dev}.
Arguments get_grating_ranges {Dev}.
Arguments close {Dev}.
Arguments __enter__ {Dev}.
Arguments __exit__ {Dev}.

(** ** Statement vocabulary *)

(** [piece] occurs in [text] as a run of consecutive fragments. *)
Definition occurs (piece text : fstring) : Prop :=
  exists before after, text = before ++ piece ++ after.

(** The first grating of the list, in stored order, that satisfies
    [p], with the gratings before it. *)
Definition first_match (p : grating_info -> bool) (gratings : list grating_info)
           (grating : grating_info) : Prop :=
  exists before after,
    gratings = before ++ grating :: after /\
    (forall g, In g before -> p g = false) /\
    p grating = true.

Definition no_match (p : grating_info -> bool) (gratings : list grating_info) : Prop :=
  forall g, In g gratings -> p g = false.

(** The session holds a handle: [self.handle is not None]. *)
Definition initialized (s : LLTF) : Prop := handle s <> None.

(** The warning of the extended-range fallback. *)
Definition extended_range_warning (wavelength : float) (grating : grating_info)
  : fstring :=
  [Lit "Wavelength "; FFloat wavelength;
   Lit " nm is in extended range for grating "; FInt (index grating)].

(** A computation keeps the relation [R] between the world it starts
    in and the world it ends in, whether it returns or raises. *)
Definition keeps {Dev A} (R : World.t Dev -> World.t Dev -> Prop) (c : M Dev A) : Prop :=
  forall w r w', c w = (r, w') -> R w w'.

(** The simulated wavelength is the same in both worlds. *)
Definition same_simulated_wavelength {Dev} (w w' : World.t Dev) : Prop :=
  simulated_wavelength (World.self w') = simulated_wavelength (World.self w).

(** ** A bench: a host to run the methods on

    The device state is the wavelength the instrument is tuned to.
    The configuration file declares two gratings whose regular ranges
    overlap between 650 and 700 nm.  [dll_present] tells whether the
    vendor library can be loaded, and [close_status] is what
    [PE_Close] returns. *)

Definition bench_doc : XmlDoc :=
  {| FilterComponent := Some (Some "LLTF Contrast M000010263");
     Gratings :=
       [ {| Range := Some {| RegLower := LeafValue 400; RegUpper := LeafValue 700;
                             ExtLower := LeafValue 390; ExtUpper := LeafValue 710 |} |};
         {| Range := Some {| RegLower := LeafValue 650; RegUpper := LeafValue 1000;
                             ExtLower := LeafValue 640; ExtUpper := LeafValue 1010 |} |} ] |}.

(** A configuration with a single grating. *)
Definition single_doc : XmlDoc :=
  {| FilterComponent := Some (Some "LLTF Contrast M000010263");
     Gratings :=
       [ {| Range := Some {| RegLower := LeafValue 400; RegUpper := LeafValue 700;
                             ExtLower := LeafValue 390; ExtUpper := LeafValue 710 |} |} ] |}.

(** A configuration with three gratings. *)
Definition triple_doc : XmlDoc :=
  {| FilterComponent := Some (Some "LLTF Contrast M000010263");
     Gratings :=
       Gratings bench_doc ++
       [ {| Range := Some {| RegLower := LeafValue 1000; RegUpper := LeafValue 1700;
                             ExtLower := LeafValue 990; ExtUpper := LeafValue 1710 |} |} ] |}.

Definition bench_host (dll_present : bool) (close_status : Z) : Host float :=
  {| glob_xml_files := ["xml_files/M000010263.xml"];
     path_exists := fun path =>
       String.eqb path "xml_files/M000010263.xml"
       || String.eqb path "single.xml" || String.eqb path "triple.xml";
     ET_parse := fun path =>
       if String.eqb path "single.xml" then Parsed single_doc
       else if String.eqb path "triple.xml" then Parsed triple_doc
       else Parsed bench_doc;
     load_CDLL := fun _ =>
       if dll_present then None else Some "Could not find module 'PE_Filter_SDK.dll'";
     PE_Create := fun _ _ d => ((PE_SUCCESS, 4096), d);
     PE_Open := fun _ _ d => (PE_SUCCESS, d);
     PE_GetSystemCount := fun _ d => (1, d);
     PE_GetWavelength := fun _ _ d => ((PE_SUCCESS, d), d);
     PE_SetWavelengthOnGrating := fun _ _ wavelength _ => (PE_SUCCESS, wavelength);
     PE_Close := fun _ d => (close_status, d);
     PE_Destroy := fun _ d => d |}.

(** The world in which a session is constructed: nothing printed,
    warned or called yet; [__init__] assigns every attribute. *)
Definition boot {Dev} (d : Dev) : World.t Dev :=
  World.mk (new_LLTF None) d [] [] [].

(** A session constructed from the bench configuration and
    initialized in simulation mode. *)
Definition simulated_session : World.t float :=
  snd ((__init__ (bench_host true PE_SUCCESS) None ;;
        initialize (bench_host true PE_SUCCESS) true)
         (boot 550%float)).

(** The same, initialized on the vendor library, whose [PE_Close]
    will fail. *)
Definition real_session : World.t float :=
  snd ((__init__ (bench_host true PE_FAILURE) None ;;
        initialize (bench_host true PE_FAILURE) false)
         (boot 550%float)).

(** The host of the simulated sessions. *)
Definition simulation_host : Host float := bench_host true PE_SUCCESS.

(** A host on which the vendor library cannot be loaded. *)
Definition host_without_library : Host float := bench_host false PE_SUCCESS.

(** A simulated session over the configuration with one grating, and
    one over the configuration with three. *)
Definition single_session : World.t float :=
  snd ((__init__ (bench_host true PE_SUCCESS) (Some "single.xml") ;;
        initialize (bench_host true PE_SUCCESS) true)
         (boot 550%float)).

Definition triple_session : World.t float :=
  snd ((__init__ (bench_host true PE_SUCCESS) (Some "triple.xml") ;;
        initialize (bench_host true PE_SUCCESS) true)
         (boot 550%float)).

(** The two gratings of the bench configuration, as loaded. *)
Definition bench_grating_0 : grating_info :=
  mk_grating_info 0 (400, 700)%float (390, 710)%float.

Definition bench_grating_1 : grating_info :=
  mk_grating_info 1 (650, 1000)%float (640, 1010)%float.

(** A caller that goes on after a failed [initialize]:
    [try: initialize(simulate) except LLTFError: pass]. *)
Definition try_initialize {Dev} (host : Host Dev) (simulate : bool) : M Dev unit :=
  try_except (initialize host simulate) is_LLTFError (fun _ => ret tt).

(** ** Callers

    What the scripts of the repository do with a session: a [with]
    block around it, and a sequence of method calls that goes on
    after a call that raised. *)

(** [with lltf: body]. [__enter__] runs, then the body, then
    [__exit__] whether the body returned or raised.  [__exit__]
    returns [None], so an exception of the body propagates once
    [__exit__] has returned; an exception of [__exit__] itself
    replaces it. *)
Definition with_statement {Dev A} (host : Host Dev) (body : M Dev A) : M Dev A :=
  fun w =>
    match __enter__ w with
    | (Raise e, w1) => (Raise e, w1)
    | (Return _, w1) =>
        match body w1 with
        | (Return a, w2) =>
            match __exit__ host w2 with
            | (Return _, w3) => (Return a, w3)
            | (Raise e, w3) => (Raise e, w3)
            end
        | (Raise e, w2) =>
            match __exit__ host w2 with
            | (Return _, w3) => (Raise e, w3)
            | (Raise e', w3) => (Raise e', w3)
            end
        end
    end.

(** A call of a public method on an existing session. *)
Inductive method_call : Type :=
| Call_initialize (simulate : bool)
| Call_get_connected_device_count
| Call_get_wavelength
| Call_set_wavelength (wavelength : float) (grating : option Z)
| Call_get_grating_ranges
| Call_close.

(** What a method call gives back. *)
Inductive value : Type :=
| VNone
| VInt (z : Z)
| VFloat (x : float)
| VRanges (l : list grating_info).

Definition invoke {Dev} (host : Host Dev) (c : method_call) : M Dev value :=
  match c with
  | Call_initialize simulate => initialize host simulate ;; ret VNone
  | Call_get_connected_device_count =>
      count <- get_connected_device_count host ;; ret (VInt count)
  | Call_get_wavelength => x <- get_wavelength host ;; ret (VFloat x)
  | Call_set_wavelength wavelength grating =>
      set_wavelength host wavelength grating ;; ret VNone
  | Call_get_grating_ranges => l <- get_grating_ranges ;; ret (VRanges l)
  | Call_close => close host ;; ret VNone
  end.

(** The world after a sequence of calls, each one made whatever the
    one before returned or raised. *)
Fixpoint run_calls {Dev} (host : Host Dev) (calls : list method_call)
         (w : World.t Dev) : World.t Dev :=
  match calls with
  | [] => w
  | c :: rest => run_calls host rest (snd (invoke host c w))
  end.

(** ** More statement vocabulary *)

(** Both worlds agree on what [proj] reads of them. *)
Definition same_on {Dev X} (proj : World.t Dev -> X) (w w' : World.t Dev) : Prop :=
  proj w' = proj w.

(** Both worlds agree on what [proj] reads of the object. *)
Definition same_self_on {Dev X} (proj : LLTF -> X) : World.t Dev -> World.t Dev -> Prop :=
  same_on (fun w => proj (World.self w)).

(** The attributes that the constructor reads of the configuration. *)
Definition configuration_of (s : LLTF) : option string * list grating_info * option string :=
  (xml_path s, grating_ranges s, system_name s).

(** The configuration that a session holds. *)
Definition configuration {Dev} (w : World.t Dev)
  : option string * list grating_info * option string :=
  configuration_of (World.self w).

(** The vendor library's side of the world. *)
Definition native_side {Dev} (w : World.t Dev) : Dev * list native_call :=
  (World.device w, World.native_calls w).

(** A computation raises only exceptions that satisfy [P]. *)
Definition raises_only {Dev A} (P : exn -> Prop) (c : M Dev A) : Prop :=
  forall w e w', c w = (Raise e, w') -> P e.

Definition is_configuration_error (e : exn) : Prop :=
  exists message,
    e = LLTFError ConfigNotFound message \/ e = LLTFError ConfigMalformed message.

(** The four leaves of a [Range] element are numbers. *)
Definition numeric_range (r : RangeElem) : bool :=
  match RegLower r, RegUpper r, ExtLower r, ExtUpper r with
  | LeafValue _, LeafValue _, LeafValue _, LeafValue _ => true
  | _, _, _, _ => false
  end.

(** A [Grating] element whose [Range] has a leaf that is not a number. *)
Definition malformed_grating (grating : GratingElem) : bool :=
  match Range grating with
  | Some r => negb (numeric_range r)
  | None => false
  end.

(** The entry [g] of [grating_ranges] comes from the [Grating] element
    at position [index g] of the document, counted from 0, and holds
    the four numbers of its [Range]. *)
Definition loaded_from (gratings : list GratingElem) (g : grating_info) : Prop :=
  0 <= index g /\
  nth_error gratings (Z.to_nat (index g)) =
  Some {| Range := Some {| RegLower := LeafValue (fst (regular_range g));
                           RegUpper := LeafValue (snd (regular_range g));
                           ExtLower := LeafValue (fst (extended_range g));
                           ExtUpper := LeafValue (snd (extended_range g)) |} |}.

(** The entries that [load_gratings i] appends for a list of
    [Grating] elements, the first one at position [i]. *)
Inductive loaded : Z -> list GratingElem -> list grating_info -> Prop :=
| loaded_nil i : loaded i [] []
| loaded_skip i rest entries :
    loaded (i + 1) rest entries ->
    loaded i ({| Range := None |} :: rest) entries
| loaded_range i a b c d rest entries :
    loaded (i + 1) rest entries ->
    loaded i ({| Range := Some {| RegLower := LeafValue a; RegUpper := LeafValue b;
                                  ExtLower := LeafValue c; ExtUpper := LeafValue d |} |}
                :: rest)
           (mk_grating_info i (a, b) (c, d) :: entries).

(** ** More of the bench *)

(** A configuration whose second grating has no [Range]. *)
Definition sparse_doc : XmlDoc :=
  {| FilterComponent := Some (Some "LLTF Contrast M000010263");
     Gratings :=
       [ {| Range := Some {| RegLower := LeafValue 400; RegUpper := LeafValue 700;
                             ExtLower := LeafValue 390; ExtUpper := LeafValue 710 |} |};
         {| Range := None |};
         {| Range := Some {| RegLower := LeafValue 650; RegUpper := LeafValue 1000;
                             ExtLower := LeafValue 640; ExtUpper := LeafValue 1010 |} |} ] |}.

(** A configuration whose grating has a bound that is not a number. *)
Definition broken_doc : XmlDoc :=
  {| FilterComponent := Some (Some "LLTF Contrast M000010263");
     Gratings :=
       [ {| Range := Some {| RegLower := LeafValue 400;
                             RegUpper := LeafError "could not convert string to float: 'n/a'";
                             ExtLower := LeafValue 390; ExtUpper := LeafValue 710 |} |} ] |}.

(** A host with several candidate files, one of each kind, and a
    vendor library whose every call returns [status]. *)
Definition field_host (status : Z) : Host float :=
  {| glob_xml_files := ["xml_files/sparse.xml"; "xml_files/other.xml"];
     path_exists := fun path => negb (String.eqb path "missing.xml");
     ET_parse := fun path =>
       if String.eqb path "garbled.xml" then ParseError "syntax error: line 1, column 0"
       else if String.eqb path "nofilter.xml" then
         Parsed {| FilterComponent := None; Gratings := [] |}
       else if String.eqb path "broken.xml" then Parsed broken_doc
       else if String.eqb path "xml_files/sparse.xml" then Parsed sparse_doc
       else Parsed bench_doc;
     load_CDLL := fun _ => None;
     PE_Create := fun _ _ d => ((status, 4096), d);
     PE_Open := fun _ _ d => (status, d);
     PE_GetSystemCount := fun _ d => (1, d);
     PE_GetWavelength := fun _ _ d => ((status, d), d);
     PE_SetWavelengthOnGrating := fun _ _ wavelength d =>
       (status, if status =? PE_SUCCESS then wavelength else d);
     PE_Close := fun _ d => (status, d);
     PE_Destroy := fun _ d => d |}.

(** A session just constructed from the bench configuration, not yet
    initialized. *)
Definition constructed_session : World.t float :=
  snd (__init__ simulation_host None (boot 550%float)).

(** A session on working hardware. *)
Definition working_session : World.t float :=
  snd ((__init__ (field_host PE_SUCCESS) (Some "bench.xml") ;;
        initialize (field_host PE_SUCCESS) false)
         (boot 550%float)).

(** A session constructed for hardware whose every call fails. *)
Definition failing_hardware_session : World.t float :=
  snd (__init__ (field_host PE_FAILURE) (Some "bench.xml") (boot 550%float)).

(** A session constructed by the directory scan of the field host. *)
Definition scanned_session : World.t float :=
  snd (__init__ (field_host PE_SUCCESS) None (boot 550%float)).

(** The third grating of the configuration with three. *)
Definition bench_grating_2 : grating_info :=
  mk_grating_info 2 (1000, 1700)%float (990, 1710)%float.

(** A script in simulation mode. *)
Definition simulated_script : list method_call :=
  [ Call_set_wavelength 600 None;
    Call_get_wavelength;
    Call_close;
    Call_initialize true;
    Call_set_wavelength 1500 None;
    Call_set_wavelength 705 (Some 1);
    Call_get_connected_device_count;
    Call_get_grating_ranges ].

(** The body of a [with] block that opens the hardware and then asks
    for a wavelength that no grating supports. *)
Definition failing_body : M float unit :=
  initialize (field_host PE_SUCCESS) false ;;
  set_wavelength (field_host PE_SUCCESS) 2000%float None.

(** * Properties *)

(** ** Grating selection *)

Section Selection.

Variable Dev : Type.

Lemma in_regular_range_between wavelength grating :
  in_regular_range wavelength grating =
  between (fst (regular_range grating)) wavelength (snd (regular_range grating)).
Proof. unfold in_regular_range. destruct (regular_range grating); reflexivity. Qed.

Lemma in_extended_range_between wavelength grating :
  in_extended_range wavelength grating =
  between (fst (extended_range grating)) wavelength (snd (extended_range grating)).
Proof. unfold in_extended_range. destruct (extended_range grating); reflexivity. Qed.

(** One turn of the first loop. *)
Lemma for_regular_range_cons wavelength grating rest (otherwise : M Dev Z) :
  for_regular_range wavelength (grating :: rest) otherwise =
  if in_regular_range wavelength grating then ret (index grating)
  else for_regular_range wavelength rest otherwise.
Proof.
  cbn [for_regular_range]. unfold in_regular_range.
  destruct (regular_range grating); reflexivity.
Qed.

(** One turn of the second loop. *)
Lemma for_extended_range_cons wavelength grating rest (otherwise : M Dev Z) :
  for_extended_range wavelength (grating :: rest) otherwise =
  if in_extended_range wavelength grating then
    (warn (extended_range_warning wavelength grating) ;; ret (index grating))%py
  else for_extended_range wavelength rest otherwise.
Proof.
  cbn [for_extended_range]. unfold in_extended_range.
  destruct (extended_range grating); reflexivity.
Qed.

Lemma for_regular_range_no_match wavelength gratings (otherwise : M Dev Z) :
  no_match (in_regular_range wavelength) gratings ->
  for_regular_range wavelength gratings otherwise = otherwise.
Proof.
  induction gratings as [|g gs IH]; intros Hno; [reflexivity|].
  rewrite for_regular_range_cons, (Hno g (or_introl eq_refl)).
  apply IH. intros h Hh. apply Hno. now right.
Qed.

Lemma for_regular_range_first_match wavelength gratings grating (otherwise : M Dev Z) :
  first_match (in_regular_range wavelength) gratings grating ->
  for_regular_range wavelength gratings otherwise = ret (index grating).
Proof.
  intros (before & after & -> & Hbefore & Hhit).
  induction before as [|g gs IH]; cbn [app].
  - now rewrite for_regular_range_cons, Hhit.
  - rewrite for_regular_range_cons, (Hbefore g (or_introl eq_refl)).
    apply IH. intros h Hh. apply Hbefore. now right.
Qed.

Lemma for_extended_range_no_match wavelength gratings (otherwise : M Dev Z) :
  no_match (in_extended_range wavelength) gratings ->
  for_extended_range wavelength gratings otherwise = otherwise.
Proof.
  induction gratings as [|g gs IH]; intros Hno; [reflexivity|].
  rewrite for_extended_range_cons, (Hno g (or_introl eq_refl)).
  apply IH. intros h Hh. apply Hno. now right.
Qed.

Lemma for_extended_range_first_match wavelength gratings grating (otherwise : M Dev Z) :
  first_match (in_extended_range wavelength) gratings grating ->
  for_extended_range wavelength gratings otherwise =
  (warn (extended_range_warning wavelength grating) ;; ret (index grating))%py.
Proof.
  intros (before & after & -> & Hbefore & Hhit).
  induction before as [|g gs IH]; cbn [app].
  - now rewrite for_extended_range_cons, Hhit.
  - rewrite for_extended_range_cons, (Hbefore g (or_introl eq_refl)).
    apply IH. intros h Hh. apply Hbefore. now right.
Qed.

(** A part of a joined text occurs in it. *)
Lemma occurs_join sep part parts :
  In part parts -> occurs part (join sep parts).
Proof.
  induction parts as [|p ps IH]; intros Hin; [contradiction|].
  cbn [join]. destruct Hin as [->|Hin].
  - destruct ps as [|q qs].
    + exists [], []. now rewrite app_nil_r.
    + exists [], (sep ++ join sep (q :: qs)). reflexivity.
  - destruct ps as [|q qs]; [contradiction|].
    destruct (IH Hin) as (before & after & Heq).
    exists (p ++ sep ++ before), after.
    rewrite Heq, <- !app_assoc. reflexivity.
Qed.

Lemma occurs_app_r prefix piece text :
  occurs piece text -> occurs piece (prefix ++ text).
Proof.
  intros (before & after & ->). exists (prefix ++ before), after.
  now rewrite <- app_assoc.
Qed.

(** C1. Selection scans the ranges in stored order and returns the
    index of the first grating whose regular range contains the
    wavelength, bounds included; the world is left as it was, so no
    warning is emitted.  In particular, with the regular ranges
    [400,700] for grating 0 and [650,1000] for grating 1, whatever
    the extended ranges, 650 nm selects grating 0. *)
Theorem select_grating_first_regular_match :
  (forall (w : World.t Dev) (wavelength : float) (grating : grating_info),
      first_match (in_regular_range wavelength)
                  (grating_ranges (World.self w)) grating ->
      _select_grating_for_wavelength wavelength w = (Return (index grating), w))
  /\
  (forall (w : World.t Dev) (ext0 ext1 : float * float),
      grating_ranges (World.self w) =
        [ mk_grating_info 0 (400, 700)%float ext0;
          mk_grating_info 1 (650, 1000)%float ext1 ] ->
      _select_grating_for_wavelength 650%float w = (Return 0, w)).
Proof.
  assert (Hgeneral :
    forall (w : World.t Dev) wavelength grating,
      first_match (in_regular_range wavelength)
                  (grating_ranges (World.self w)) grating ->
      _select_grating_for_wavelength wavelength w = (Return (index grating), w)).
  { intros w wavelength grating Hfirst.
    unfold _select_grating_for_wavelength, bind, get_self.
    now rewrite (for_regular_range_first_match _ _ _ _ Hfirst). }
  split; [exact Hgeneral|].
  intros w ext0 ext1 Hranges.
  apply (Hgeneral w 650%float (mk_grating_info 0 (400, 700)%float ext0)).
  rewrite Hranges. exists [], [mk_grating_info 1 (650, 1000)%float ext1].
  repeat split. intros g [].
Qed.

(** C2. When no regular range contains the wavelength, selection
    scans the extended ranges in the same stored order, returns the
    index of the first grating whose extended range contains it,
    bounds included, and emits one warning, which names the extended
    range; it does not raise and changes nothing else. *)
Theorem select_grating_extended_fallback :
  forall (w : World.t Dev) (wavelength : float) (grating : grating_info),
    no_match (in_regular_range wavelength) (grating_ranges (World.self w)) ->
    first_match (in_extended_range wavelength)
                (grating_ranges (World.self w)) grating ->
    _select_grating_for_wavelength wavelength w =
    (Return (index grating),
     World.with_warning w
       [Lit "Wavelength "; FFloat wavelength;
        Lit " nm is in extended range for grating "; FInt (index grating)]).
Proof.
  intros w wavelength grating Hno Hfirst.
  unfold _select_grating_for_wavelength, bind, get_self.
  rewrite (for_regular_range_no_match _ _ _ Hno).
  now rewrite (for_extended_range_first_match _ _ _ _ Hfirst).
Qed.

End Selection.

(** ** Sessions *)

Section Session.

Variable Dev : Type.
Variable host : Host Dev.

(** [initialize(simulate=True)] always returns: it records the
    mode, installs the dummy handle and prints one line. *)
Lemma initialize_simulate (w : World.t Dev) :
  initialize host true w =
  (Return tt,
   World.with_stdout
     (World.with_self w
        (set_handle (set_simulate_mode (World.self w) true) (Some 1)))
     [Lit "LLTF: Initialized in simulation mode"]).
Proof. reflexivity. Qed.

(** What [set_wavelength] does once the grating is known. *)
Lemma set_wavelength_explicit (w : World.t Dev) wavelength g h :
  handle (World.self w) = Some h ->
  set_wavelength host wavelength (Some g) w =
  if negb ((g =? 0) || (g =? 1)) then
    (Raise (LLTFError InvalidGrating
              [Lit "Invalid grating index: "; FInt g; Lit ". Must be 0 or 1."]), w)
  else if simulate_mode (World.self w) then
    (Return tt,
     World.with_stdout
       (World.with_self w (set_simulated_wavelength (World.self w) wavelength))
       [Lit "LLTF: Set wavelength to "; FFloat wavelength; Lit " nm (simulation)"])
  else
    (status <- dll_call "PE_SetWavelengthOnGrating"
                        (Call_PE_SetWavelengthOnGrating h g wavelength)
                        (PE_SetWavelengthOnGrating host h g wavelength) ;;
     _check_status status
       [Lit "PE_SetWavelengthOnGrating(grating="; FInt g; Lit ")"])%py w.
Proof.
  intros Hh. unfold set_wavelength, bind, get_self. rewrite Hh.
  unfold ret. destruct (negb ((g =? 0) || (g =? 1))); [reflexivity|].
  destruct (simulate_mode (World.self w)); reflexivity.
Qed.

(** [_check_status] raises nothing but a native status failure, and
    leaves the world as it is. *)
Lemma _check_status_cases status operation (w : World.t Dev) :
  _check_status status operation w = (Return tt, w) \/
  exists message,
    _check_status status operation w =
    (Raise (LLTFError (NativeStatusFailure status) message), w).
Proof.
  unfold _check_status. destruct (negb (status =? PE_SUCCESS)).
  - right. eexists. reflexivity.
  - now left.
Qed.

(** Neither loop of the selection changes the object, when the code
    after it does not. *)
Lemma for_regular_range_self wavelength gratings (otherwise : M Dev Z)
      (w : World.t Dev) :
  (forall r w', otherwise w = (r, w') -> World.self w' = World.self w) ->
  forall r w', for_regular_range wavelength gratings otherwise w = (r, w') ->
               World.self w' = World.self w.
Proof.
  intros Hother. induction gratings as [|g gs IH]; [exact Hother|].
  intros r w'. rewrite for_regular_range_cons.
  destruct (in_regular_range wavelength g); [|apply IH].
  unfold ret. now intros [= _ <-].
Qed.

Lemma for_extended_range_self wavelength gratings (otherwise : M Dev Z)
      (w : World.t Dev) :
  (forall r w', otherwise w = (r, w') -> World.self w' = World.self w) ->
  forall r w', for_extended_range wavelength gratings otherwise w = (r, w') ->
               World.self w' = World.self w.
Proof.
  intros Hother. induction gratings as [|g gs IH]; [exact Hother|].
  intros r w'. rewrite for_extended_range_cons.
  destruct (in_extended_range wavelength g); [|apply IH].
  unfold bind, warn, ret. now intros [= _ <-].
Qed.

(** Selection changes nothing of the object. *)
Lemma select_grating_self wavelength (w w' : World.t Dev) r :
  _select_grating_for_wavelength wavelength w = (r, w') ->
  World.self w' = World.self w.
Proof.
  unfold _select_grating_for_wavelength, bind, get_self.
  apply for_regular_range_self. apply for_extended_range_self.
  unfold raise. now intros r0 w0 [= _ <-].
Qed.

(** C3. On an initialized session, [set_wavelength] without a
    grating, for a wavelength that no regular range and no extended
    range contains, raises [LLTFError] of category
    [UnsupportedWavelength], with nothing changed; and the message
    holds, for every configured grating, its index and the two
    bounds of its regular range. *)
Theorem set_wavelength_unsupported :
  forall (w : World.t Dev) (wavelength : float),
    initialized (World.self w) ->
    no_match (in_regular_range wavelength) (grating_ranges (World.self w)) ->
    no_match (in_extended_range wavelength) (grating_ranges (World.self w)) ->
    exists message,
      set_wavelength host wavelength None w =
      (Raise (LLTFError UnsupportedWavelength message), w)
      /\ forall g, In g (grating_ranges (World.self w)) ->
           occurs [Lit "Grating "; FInt (index g); Lit ": ";
                   FFloat (fst (regular_range g)); Lit "-";
                   FFloat (snd (regular_range g)); Lit " nm"]
                  message.
Proof.
  intros w wavelength Hinit Hreg Hext.
  exists (unsupported_message wavelength (grating_ranges (World.self w))).
  split.
  - unfold set_wavelength, bind, get_self.
    destruct (handle (World.self w)) as [h|] eqn:Hh; [|now elim Hinit].
    unfold _select_grating_for_wavelength, bind, get_self.
    rewrite (for_regular_range_no_match _ _ _ _ Hreg).
    rewrite (for_extended_range_no_match _ _ _ _ Hext).
    reflexivity.
  - intros g Hg. unfold unsupported_message.
    apply occurs_app_r, occurs_join.
    replace [Lit "Grating "; FInt (index g); Lit ": ";
             FFloat (fst (regular_range g)); Lit "-";
             FFloat (snd (regular_range g)); Lit " nm"]
      with (range_str g)
      by (unfold range_str; destruct (regular_range g); reflexivity).
    now apply in_map.
Qed.

(** C5. In simulation mode, [get_wavelength] after a
    [set_wavelength] that returned gives back exactly the wavelength
    that was set, whether the grating was given or selected. *)
Theorem get_wavelength_after_set_simulated :
  forall (w w' : World.t Dev) (wavelength : float) (grating : option Z),
    simulate_mode (World.self w) = true ->
    set_wavelength host wavelength grating w = (Return tt, w') ->
    get_wavelength host w' = (Return wavelength, w').
Proof.
  intros w w' wavelength grating Hsim.
  unfold set_wavelength, bind, get_self.
  destruct (handle (World.self w)) as [h|]; [|discriminate].
  destruct grating as [g|].
  - unfold ret. rewrite Hsim.
    destruct (negb ((g =? 0) || (g =? 1))); [discriminate|].
    unfold update_self, print. intros [= <-].
    unfold get_wavelength, bind, get_self. cbn. now rewrite Hsim.
  - destruct (_select_grating_for_wavelength wavelength w) as [[g|e] w1] eqn:Hsel;
      [|discriminate].
    pose proof (select_grating_self _ _ _ _ Hsel) as Hself.
    rewrite Hsim.
    destruct (negb ((g =? 0) || (g =? 1))); [discriminate|].
    unfold update_self, print. intros [= <-].
    unfold get_wavelength, bind, get_self. cbn. now rewrite Hself, Hsim.
Qed.

(** C10. With an explicit grating 0 or 1, [set_wavelength] on an
    initialized session in simulation mode returns for every
    wavelength, in range or not, and the simulated wavelength is then
    the one given; and whatever the session, a [set_wavelength] with
    an explicit grating never raises the [UnsupportedWavelength]
    error. *)
Theorem explicit_grating_skips_range_check :
  (forall (w : World.t Dev) (wavelength : float) (g : Z),
      initialized (World.self w) ->
      simulate_mode (World.self w) = true ->
      g = 0 \/ g = 1 ->
      exists w',
        set_wavelength host wavelength (Some g) w = (Return tt, w')
        /\ simulated_wavelength (World.self w') = wavelength)
  /\
  (forall (w w' : World.t Dev) (wavelength : float) (g : Z) (e : exn),
      set_wavelength host wavelength (Some g) w = (Raise e, w') ->
      forall message, e <> LLTFError UnsupportedWavelength message).
Proof.
  split.
  - intros w wavelength g Hinit Hsim Hg.
    destruct (handle (World.self w)) as [h|] eqn:Hh; [|now elim Hinit].
    rewrite (set_wavelength_explicit _ _ _ _ Hh), Hsim.
    replace (negb ((g =? 0) || (g =? 1))) with false
      by (destruct Hg; subst g; reflexivity).
    eexists. split; reflexivity.
  - intros w w' wavelength g e Hraise message ->.
    destruct (handle (World.self w)) as [h|] eqn:Hh.
    + rewrite (set_wavelength_explicit _ _ _ _ Hh) in Hraise.
      destruct (negb ((g =? 0) || (g =? 1))); [discriminate|].
      destruct (simulate_mode (World.self w)); [discriminate|].
      unfold bind, dll_call in Hraise.
      destruct (dll (World.self w)); [|discriminate].
      destruct (PE_SetWavelengthOnGrating host h g wavelength (World.device w))
        as [status d].
      match type of Hraise with
      | _check_status ?st ?op ?w0 = _ =>
          destruct (_check_status_cases st op w0) as [Hok|[m Hko]];
          [rewrite Hok in Hraise|rewrite Hko in Hraise]; discriminate
      end.
    + unfold set_wavelength, bind, get_self in Hraise. rewrite Hh in Hraise.
      discriminate.
Qed.

(** C6, as the code has it. On an initialized session an explicit
    grating is checked against the fixed indices 0 and 1, whatever
    the loaded ranges are: any other index makes [set_wavelength]
    raise [LLTFError] of category [InvalidGrating] with nothing
    changed, and index 0 or 1 never gives that error. *)
Theorem explicit_grating_checked_against_0_and_1 :
  forall (w : World.t Dev) (wavelength : float) (g : Z),
    initialized (World.self w) ->
    (g <> 0 /\ g <> 1 ->
     set_wavelength host wavelength (Some g) w =
     (Raise (LLTFError InvalidGrating
               [Lit "Invalid grating index: "; FInt g; Lit ". Must be 0 or 1."]), w))
    /\
    (g = 0 \/ g = 1 ->
     forall message w',
       set_wavelength host wavelength (Some g) w <>
       (Raise (LLTFError InvalidGrating message), w')).
Proof.
  intros w wavelength g Hinit.
  destruct (handle (World.self w)) as [h|] eqn:Hh; [|now elim Hinit].
  rewrite (set_wavelength_explicit _ _ _ _ Hh). split.
  - intros [H0 H1].
    apply Z.eqb_neq in H0, H1. now rewrite H0, H1.
  - intros Hg message w'.
    replace (negb ((g =? 0) || (g =? 1))) with false
      by (destruct Hg; subst g; reflexivity).
    destruct (simulate_mode (World.self w)); [discriminate|].
    unfold bind, dll_call.
    destruct (dll (World.self w)); [|discriminate].
    destruct (PE_SetWavelengthOnGrating host h g wavelength (World.device w))
      as [status d].
    match goal with
    | |- _check_status ?st ?op ?w0 <> _ =>
        destruct (_check_status_cases st op w0) as [Hok|[m Hko]];
        [rewrite Hok|rewrite Hko]; discriminate
    end.
Qed.

(** [close] in simulation mode: one line printed, nothing else. *)
Lemma close_simulated (w : World.t Dev) :
  simulate_mode (World.self w) = true ->
  close host w =
  (Return tt, World.with_stdout w [Lit "LLTF: Closed simulation connection"]).
Proof. intros Hsim. unfold close, bind, get_self. now rewrite Hsim. Qed.

(** [close] on the vendor library without a handle does nothing. *)
Lemma close_no_handle (w : World.t Dev) :
  simulate_mode (World.self w) = false ->
  handle (World.self w) = None ->
  close host w = (Return tt, w).
Proof.
  intros Hsim Hh. unfold close, bind, get_self. now rewrite Hsim, Hh.
Qed.

(** [close] on the vendor library with a handle and the library
    loaded: [PE_Close] then [PE_Destroy] are called, whatever status
    [PE_Close] returns, and the handle is cleared. *)
Lemma close_loaded (w : World.t Dev) h l :
  simulate_mode (World.self w) = false ->
  handle (World.self w) = Some h ->
  dll (World.self w) = Some l ->
  close host w =
  (Return tt,
   let d := snd (PE_Close host h (World.device w)) in
   World.with_self
     (World.with_device
        (World.with_device w d (Call_PE_Close h))
        (PE_Destroy host h d) (Call_PE_Destroy h))
     (set_handle (World.self w) None)).
Proof.
  intros Hsim Hh Hl. unfold close, bind, get_self. rewrite Hsim, Hh, Hl.
  unfold dll_call at 1. rewrite Hl.
  destruct (PE_Close host h (World.device w)) as [status d]. cbn [snd].
  unfold try_except, _check_status.
  destruct (negb (status =? PE_SUCCESS)); cbn; unfold dll_call; cbn;
    rewrite Hl; reflexivity.
Qed.

(** [close] without the library loaded, in real mode and with a
    handle: the attribute lookup [self.dll.PE_Close] fails. *)
Lemma close_not_loaded (w : World.t Dev) h :
  simulate_mode (World.self w) = false ->
  handle (World.self w) = Some h ->
  dll (World.self w) = None ->
  close host w =
  (Raise (AttributeError
            [Lit "'NoneType' object has no attribute '"; Lit "PE_Close"; Lit "'"]), w).
Proof.
  intros Hsim Hh Hl. unfold close, bind, get_self. rewrite Hsim, Hh.
  unfold dll_call. now rewrite Hl.
Qed.

(** C7, as the code has it. In real mode the handle is [None] after
    [close] returns, whatever status the native close call gave, and
    [close] does return when the vendor library is loaded; in
    simulation mode [close] returns and leaves the object, handle
    included, as it was. *)
Theorem close_clears_handle_in_real_mode :
  forall w : World.t Dev,
    (simulate_mode (World.self w) = false ->
     forall w', close host w = (Return tt, w') -> handle (World.self w') = None)
    /\
    (simulate_mode (World.self w) = false ->
     dll (World.self w) <> None ->
     exists w', close host w = (Return tt, w') /\ handle (World.self w') = None)
    /\
    (simulate_mode (World.self w) = true ->
     exists w', close host w = (Return tt, w') /\ World.self w' = World.self w).
Proof.
  intros w.
  assert (Hloaded : simulate_mode (World.self w) = false ->
                    dll (World.self w) <> None ->
                    exists w', close host w = (Return tt, w')
                               /\ handle (World.self w') = None).
  { intros Hsim Hl.
    destruct (handle (World.self w)) as [h|] eqn:Hh.
    - destruct (dll (World.self w)) as [l|] eqn:Hd; [|now elim Hl].
      rewrite (close_loaded _ _ _ Hsim Hh Hd). eexists. split; reflexivity.
    - rewrite (close_no_handle _ Hsim Hh). eexists. split; [reflexivity|exact Hh]. }
  split; [|split; [exact Hloaded|]].
  - intros Hsim w' Hclose.
    destruct (dll (World.self w)) as [l|] eqn:Hd.
    + destruct Hloaded as (w1 & Heq & Hnone); [exact Hsim|discriminate|].
      rewrite Heq in Hclose. now injection Hclose as <-.
    + destruct (handle (World.self w)) as [h|] eqn:Hh.
      * rewrite (close_not_loaded _ _ Hsim Hh Hd) in Hclose. discriminate.
      * rewrite (close_no_handle _ Hsim Hh) in Hclose. now injection Hclose as <-.
  - intros Hsim. rewrite (close_simulated _ Hsim). eexists. split; reflexivity.
Qed.

(** *** What the constructor leaves in [simulated_wavelength] *)

Lemma keeps_ret {A} (R : World.t Dev -> World.t Dev -> Prop) (a : A) :
  (forall w, R w w) -> keeps R (ret a).
Proof. intros Hrefl w r w' [= _ <-]. apply Hrefl. Qed.

Lemma keeps_raise {A} (R : World.t Dev -> World.t Dev -> Prop) (e : exn) :
  (forall w, R w w) -> keeps R (raise e : M Dev A).
Proof. intros Hrefl w r w' [= _ <-]. apply Hrefl. Qed.

Lemma keeps_bind {A B} (R : World.t Dev -> World.t Dev -> Prop)
      (c : M Dev A) (k : A -> M Dev B) :
  (forall w1 w2 w3, R w1 w2 -> R w2 w3 -> R w1 w3) ->
  keeps R c -> (forall a, keeps R (k a)) -> keeps R (bind c k).
Proof.
  intros Htrans Hc Hk w r w'. unfold bind.
  destruct (c w) as [[a|e] w1] eqn:Hcw.
  - intros Hka. exact (Htrans _ _ _ (Hc _ _ _ Hcw) (Hk a _ _ _ Hka)).
  - intros [= _ <-]. exact (Hc _ _ _ Hcw).
Qed.

Lemma keeps_try_except {A} (R : World.t Dev -> World.t Dev -> Prop)
      (c : M Dev A) catches (handler : exn -> M Dev A) :
  (forall w1 w2 w3, R w1 w2 -> R w2 w3 -> R w1 w3) ->
  keeps R c -> (forall e, keeps R (handler e)) -> keeps R (try_except c catches handler).
Proof.
  intros Htrans Hc Hh w r w'. unfold try_except.
  destruct (c w) as [[a|e] w1] eqn:Hcw.
  - intros [= _ <-]. exact (Hc _ _ _ Hcw).
  - destruct (catches e).
    + intros Hhe. exact (Htrans _ _ _ (Hc _ _ _ Hcw) (Hh e _ _ _ Hhe)).
    + intros [= _ <-]. exact (Hc _ _ _ Hcw).
Qed.

Lemma same_simulated_wavelength_refl (w : World.t Dev) :
  same_simulated_wavelength w w.
Proof. reflexivity. Qed.

Lemma same_simulated_wavelength_trans (w1 w2 w3 : World.t Dev) :
  same_simulated_wavelength w1 w2 -> same_simulated_wavelength w2 w3 ->
  same_simulated_wavelength w1 w3.
Proof. unfold same_simulated_wavelength. congruence. Qed.

Lemma keeps_update_self (f : LLTF -> LLTF) :
  (forall s, simulated_wavelength (f s) = simulated_wavelength s) ->
  keeps same_simulated_wavelength (update_self f : M Dev unit).
Proof. intros Hf w r w' [= _ <-]. apply Hf. Qed.

Lemma keeps_warn message :
  keeps same_simulated_wavelength (warn message : M Dev unit).
Proof. intros w r w' [= _ <-]. reflexivity. Qed.

Lemma keeps_float_of_leaf l :
  keeps same_simulated_wavelength (float_of_leaf l : M Dev float).
Proof.
  destruct l; [apply keeps_ret|apply keeps_raise];
    exact same_simulated_wavelength_refl.
Qed.

Create HintDb frame.
#[local] Hint Resolve same_simulated_wavelength_refl
  same_simulated_wavelength_trans keeps_warn keeps_float_of_leaf : frame.
#[local] Hint Extern 1 (keeps _ (ret _)) => apply keeps_ret : frame.
#[local] Hint Extern 1 (keeps _ (raise _)) => apply keeps_raise : frame.
#[local] Hint Extern 1 (keeps _ (bind _ _)) => apply keeps_bind; [| |intros ?] : frame.
#[local] Hint Extern 1 (keeps _ (update_self _)) =>
  apply keeps_update_self; intros ?; reflexivity : frame.
#[local] Hint Extern 2 (same_simulated_wavelength _ _) =>
  eapply same_simulated_wavelength_trans; eassumption : frame.

Lemma keeps_load_gratings gratings :
  forall i, keeps same_simulated_wavelength (load_gratings i gratings : M Dev unit).
Proof.
  induction gratings as [|grating rest IH]; intros i; cbn [load_gratings].
  - auto with frame.
  - apply keeps_bind; [eauto with frame| |intros _; apply IH].
    destruct (Range grating) as [range_elem|]; auto 12 with frame.
Qed.

Lemma keeps__load_xml_config :
  keeps same_simulated_wavelength (_load_xml_config host).
Proof.
  unfold _load_xml_config.
  apply keeps_bind; [eauto with frame|intros w r w' [= _ <-]; reflexivity|intros s].
  apply keeps_bind; [eauto with frame| |intros path].
  - destruct (xml_path s) as [path|]; [auto with frame|].
    destruct (glob_xml_files host) as [|first [|second others]]; auto 8 with frame.
  - destruct (negb (path_exists host path)); [auto with frame|].
    apply keeps_try_except; [eauto with frame| |].
    + destruct (ET_parse host path) as [root|e|e]; [|auto with frame..].
      apply keeps_bind; [eauto with frame| |intros _; apply keeps_load_gratings].
      destruct (FilterComponent root); auto with frame.
    + intros e. destruct e; auto with frame.
Qed.

(** A session that [__init__] has constructed holds 550.0 as its
    simulated wavelength. *)
Lemma __init___simulated_wavelength xml_config_path (w w' : World.t Dev) r :
  __init__ host xml_config_path w = (r, w') ->
  simulated_wavelength (World.self w') = 550%float.
Proof.
  unfold __init__, bind. cbn [update_self].
  intros Hload. apply keeps__load_xml_config in Hload. exact Hload.
Qed.

(** C9, as the code has it. The constructor records 550.0 nm as the
    simulated wavelength, and [initialize(simulate=True)] leaves the
    simulated wavelength as it finds it.  So [get_wavelength] just
    after [initialize(simulate=True)] returns 550.0 on a session that
    was just constructed, and in general returns the simulated
    wavelength the session held before the call. *)
Theorem get_wavelength_after_initialize_simulated :
  (forall (w0 w1 w2 : World.t Dev) (xml_config_path : option string),
      __init__ host xml_config_path w0 = (Return tt, w1) ->
      initialize host true w1 = (Return tt, w2) ->
      get_wavelength host w2 = (Return 550%float, w2))
  /\
  (forall w : World.t Dev,
      exists w',
        initialize host true w = (Return tt, w')
        /\ get_wavelength host w' =
           (Return (simulated_wavelength (World.self w)), w')).
Proof.
  split.
  - intros w0 w1 w2 xml_config_path Hinit.
    rewrite initialize_simulate. intros [= <-].
    unfold get_wavelength, bind, get_self. cbn.
    now rewrite (__init___simulated_wavelength _ _ _ _ Hinit).
  - intros w. rewrite initialize_simulate. eexists. split; reflexivity.
Qed.

(** [close] returns whenever the session is in simulation mode, or
    holds no handle, or has the vendor library loaded; a failing
    [PE_Close] is then followed by [PE_Destroy] all the same, and a
    second [close] right after the first returns too. *)
Theorem close_returns_when_library_loaded :
  forall w : World.t Dev,
    (simulate_mode (World.self w) = false ->
     handle (World.self w) <> None -> dll (World.self w) <> None) ->
    exists w' w'',
      close host w = (Return tt, w')
      /\ close host w' = (Return tt, w'')
      /\ (simulate_mode (World.self w) = false ->
          forall h, handle (World.self w) = Some h ->
                    World.native_calls w' =
                    World.native_calls w ++ [Call_PE_Close h; Call_PE_Destroy h]
                    /\ World.native_calls w'' = World.native_calls w').
Proof.
  intros w Hloaded.
  destruct (simulate_mode (World.self w)) eqn:Hsim.
  - rewrite (close_simulated _ Hsim).
    do 2 eexists. split; [reflexivity|]. split; [|discriminate].
    now rewrite close_simulated.
  - destruct (handle (World.self w)) as [h|] eqn:Hh.
    + destruct (dll (World.self w)) as [l|] eqn:Hd;
        [|now elim (Hloaded eq_refl ltac:(discriminate))].
      rewrite (close_loaded _ _ _ Hsim Hh Hd).
      do 2 eexists. split; [reflexivity|]. split.
      * now rewrite close_no_handle.
      * intros _ h' [= <-]. cbn. now rewrite <- app_assoc.
    + rewrite (close_no_handle _ Hsim Hh).
      do 2 eexists. split; [reflexivity|]. split.
      * now rewrite close_no_handle.
      * intros _ h'. discriminate.
Qed.

End Session.

(** ** The theorems at work on the bench *)

(** On the bench session 650 nm lies in both regular ranges and
    selects grating 0, the first of the two. *)
Lemma select_grating_first_regular_match_bench :
  first_match (in_regular_range 650%float)
              (grating_ranges (World.self simulated_session)) bench_grating_0
  /\ _select_grating_for_wavelength 650%float simulated_session =
     (Return 0, simulated_session).
Proof.
  assert (H : first_match (in_regular_range 650%float)
                (grating_ranges (World.self simulated_session)) bench_grating_0).
  { exists [], [bench_grating_1]. repeat split. intros g []. }
  split; [exact H|].
  exact (proj1 (select_grating_first_regular_match float)
               simulated_session 650%float bench_grating_0 H).
Defined.

(** 1005 nm lies in no regular range and in the extended range of
    grating 1 only: grating 1 is selected, with the warning. *)
Lemma select_grating_extended_fallback_bench :
  no_match (in_regular_range 1005%float)
           (grating_ranges (World.self simulated_session))
  /\ first_match (in_extended_range 1005%float)
                 (grating_ranges (World.self simulated_session)) bench_grating_1
  /\ _select_grating_for_wavelength 1005%float simulated_session =
     (Return 1,
      World.with_warning simulated_session
        [Lit "Wavelength "; FFloat 1005;
         Lit " nm is in extended range for grating "; FInt 1]).
Proof.
  assert (Hno : no_match (in_regular_range 1005%float)
                  (grating_ranges (World.self simulated_session))).
  { intros g [<-|[<-|[]]]; reflexivity. }
  assert (Hfirst : first_match (in_extended_range 1005%float)
                     (grating_ranges (World.self simulated_session)) bench_grating_1).
  { exists [bench_grating_0], []. repeat split. intros g [<-|[]]. reflexivity. }
  split; [exact Hno|]. split; [exact Hfirst|].
  exact (select_grating_extended_fallback
           float simulated_session 1005%float bench_grating_1 Hno Hfirst).
Defined.

(** 1500 nm lies in no range of the bench configuration. *)
Lemma set_wavelength_unsupported_bench :
  initialized (World.self simulated_session)
  /\ no_match (in_regular_range 1500%float)
              (grating_ranges (World.self simulated_session))
  /\ no_match (in_extended_range 1500%float)
              (grating_ranges (World.self simulated_session))
  /\ exists message,
      set_wavelength simulation_host 1500%float None simulated_session =
      (Raise (LLTFError UnsupportedWavelength message), simulated_session)
      /\ forall g, In g (grating_ranges (World.self simulated_session)) ->
           occurs [Lit "Grating "; FInt (index g); Lit ": ";
                   FFloat (fst (regular_range g)); Lit "-";
                   FFloat (snd (regular_range g)); Lit " nm"]
                  message.
Proof.
  assert (Hinit : initialized (World.self simulated_session)) by discriminate.
  assert (Hreg : no_match (in_regular_range 1500%float)
                   (grating_ranges (World.self simulated_session))).
  { intros g [<-|[<-|[]]]; reflexivity. }
  assert (Hext : no_match (in_extended_range 1500%float)
                   (grating_ranges (World.self simulated_session))).
  { intros g [<-|[<-|[]]]; reflexivity. }
  repeat (split; [assumption|]).
  exact (set_wavelength_unsupported float simulation_host simulated_session
           1500%float Hinit Hreg Hext).
Defined.

(** 600 nm set on the bench session, grating selected, is read back. *)
Lemma get_wavelength_after_set_simulated_bench :
  simulate_mode (World.self simulated_session) = true
  /\ fst (set_wavelength simulation_host 600%float None simulated_session) = Return tt
  /\ get_wavelength simulation_host
       (snd (set_wavelength simulation_host 600%float None simulated_session)) =
     (Return 600%float,
      snd (set_wavelength simulation_host 600%float None simulated_session)).
Proof.
  split; [reflexivity|]. split; [reflexivity|].
  apply (get_wavelength_after_set_simulated float simulation_host
           simulated_session _ 600%float None); reflexivity.
Defined.

(** 1500 nm, outside every range, is accepted on grating 1. *)
Lemma explicit_grating_skips_range_check_bench :
  initialized (World.self simulated_session)
  /\ no_match (in_regular_range 1500%float)
              (grating_ranges (World.self simulated_session))
  /\ no_match (in_extended_range 1500%float)
              (grating_ranges (World.self simulated_session))
  /\ exists w',
      set_wavelength simulation_host 1500%float (Some 1) simulated_session =
      (Return tt, w')
      /\ simulated_wavelength (World.self w') = 1500%float.
Proof.
  split; [discriminate|].
  split; [intros g [<-|[<-|[]]]; reflexivity|].
  split; [intros g [<-|[<-|[]]]; reflexivity|].
  apply (proj1 (explicit_grating_skips_range_check float simulation_host)).
  - discriminate.
  - reflexivity.
  - now right.
Defined.

(** With three gratings configured, the explicit index 2 is refused. *)
Lemma explicit_grating_checked_against_0_and_1_bench :
  initialized (World.self triple_session)
  /\ In 2 (map index (grating_ranges (World.self triple_session)))
  /\ set_wavelength simulation_host 1200%float (Some 2) triple_session =
     (Raise (LLTFError InvalidGrating
               [Lit "Invalid grating index: "; FInt 2; Lit ". Must be 0 or 1."]),
      triple_session).
Proof.
  assert (Hinit : initialized (World.self triple_session)) by discriminate.
  split; [exact Hinit|]. split; [cbn; tauto|].
  apply (proj1 (explicit_grating_checked_against_0_and_1
                  float simulation_host triple_session 1200%float 2 Hinit)).
  split; discriminate.
Defined.

(** C6 as stated fails: with a single configured grating, of index 0,
    an explicit grating 1 is accepted; with three configured gratings,
    the configured index 2 is refused. *)
Lemma unconfigured_grating_accepted :
  map index (grating_ranges (World.self single_session)) = [0]
  /\ initialized (World.self single_session)
  /\ fst (set_wavelength simulation_host 600%float (Some 1) single_session) = Return tt
  /\ map index (grating_ranges (World.self triple_session)) = [0; 1; 2]
  /\ fst (set_wavelength simulation_host 1200%float (Some 2) triple_session) =
     Raise (LLTFError InvalidGrating
              [Lit "Invalid grating index: "; FInt 2; Lit ". Must be 0 or 1."]).
Proof.
  split; [reflexivity|]. split; [discriminate|]. repeat split.
Qed.

(** On the real session [PE_Close] returns [PE_FAILURE]; [close]
    returns all the same and the handle is cleared. *)
Lemma close_clears_handle_in_real_mode_bench :
  simulate_mode (World.self real_session) = false
  /\ dll (World.self real_session) <> None
  /\ fst (PE_Close (bench_host true PE_FAILURE) 4096 (World.device real_session)) =
     PE_FAILURE
  /\ exists w',
      close (bench_host true PE_FAILURE) real_session = (Return tt, w')
      /\ handle (World.self w') = None.
Proof.
  split; [reflexivity|]. split; [discriminate|]. split; [reflexivity|].
  apply (proj1 (proj2 (close_clears_handle_in_real_mode
                         float (bench_host true PE_FAILURE) real_session))).
  - reflexivity.
  - discriminate.
Defined.

(** C7 as stated fails in simulation mode: the session is initialized,
    [close] returns, and the handle is still the dummy handle. *)
Lemma close_keeps_simulation_handle :
  initialized (World.self simulated_session)
  /\ simulate_mode (World.self simulated_session) = true
  /\ exists w',
      close simulation_host simulated_session = (Return tt, w')
      /\ handle (World.self w') = Some 1.
Proof.
  split; [discriminate|]. split; [reflexivity|].
  eexists. split; reflexivity.
Qed.

(** The bench session, just constructed and initialized, reports
    550 nm. *)
Lemma get_wavelength_after_initialize_simulated_bench :
  fst (__init__ simulation_host None (boot 550%float)) = Return tt
  /\ get_wavelength simulation_host simulated_session =
     (Return 550%float, simulated_session).
Proof.
  split; [reflexivity|].
  apply (proj1 (get_wavelength_after_initialize_simulated float simulation_host)
               (boot 550%float)
               (snd (__init__ simulation_host None (boot 550%float)))
               simulated_session None); reflexivity.
Defined.

(** C9 as stated fails: a session is constructed, initialized in
    simulation mode, set to 600 nm and closed; initialized afresh in
    simulation mode, it reports 600 nm, not 550 nm. *)
Lemma reinitialized_session_keeps_wavelength :
  fst ((__init__ simulation_host None ;;
        initialize simulation_host true ;;
        set_wavelength simulation_host 600%float None ;;
        close simulation_host ;;
        initialize simulation_host true ;;
        get_wavelength simulation_host)
         (boot 550%float)) = Return 600%float.
Proof. reflexivity. Qed.

(** C8, the code at a session whose vendor library failed to load. A
    session is initialized in simulation mode and closed; a fresh
    [initialize] on the hardware then fails because the library
    cannot be loaded, which leaves the simulation handle in place and
    [self.dll] at [None]; the [close] that follows raises
    [AttributeError]. *)
Theorem close_raises_when_library_failed_to_load :
  fst ((__init__ host_without_library None ;;
        initialize host_without_library true ;;
        close host_without_library ;;
        try_initialize host_without_library false ;;
        close host_without_library)
         (boot 550%float)) =
  Raise (AttributeError
           [Lit "'NoneType' object has no attribute '"; Lit "PE_Close"; Lit "'"]).
Proof. reflexivity. Qed.

(** Two calls of [close] in a row on the real session, whose
    [PE_Close] fails. *)
Lemma close_returns_when_library_loaded_bench :
  dll (World.self real_session) <> None
  /\ fst (PE_Close (bench_host true PE_FAILURE) 4096 (World.device real_session)) =
     PE_FAILURE
  /\ exists w' w'',
      close (bench_host true PE_FAILURE) real_session = (Return tt, w')
      /\ close (bench_host true PE_FAILURE) w' = (Return tt, w'')
      /\ (simulate_mode (World.self real_session) = false ->
          forall h, handle (World.self real_session) = Some h ->
                    World.native_calls w' =
                    World.native_calls real_session
                      ++ [Call_PE_Close h; Call_PE_Destroy h]
                    /\ World.native_calls w'' = World.native_calls w').
Proof.
  split; [discriminate|]. split; [reflexivity|].
  apply (close_returns_when_library_loaded float (bench_host true PE_FAILURE)
           real_session).
  intros _ _. discriminate.
Defined.

(** ** The constructor *)

Section Constructor.

Variable Dev : Type.
Variable host : Host Dev.

(** When the loop over the [Grating] elements ends without an
    exception, it has appended one entry per element that has a
    [Range], and changed nothing else. *)
Lemma load_gratings_returns gratings :
  forall i (w w' : World.t Dev),
    load_gratings i gratings w = (Return tt, w') ->
    exists entries,
      loaded i gratings entries
      /\ w' = World.with_self w
                (set_grating_ranges (World.self w)
                                    (grating_ranges (World.self w) ++ entries)).
Proof.
  induction gratings as [|[range] rest IH]; intros i w w'; cbn [load_gratings].
  - intros [= <-]. exists []. split; [constructor|].
    destruct w as [[] ? ? ? ?]. cbn. now rewrite app_nil_r.
  - unfold bind. cbn [Range]. destruct range as [[a b c d]|].
    + destruct a as [a|]; [|discriminate].
      destruct b as [b|]; [|discriminate].
      destruct c as [c|]; [|discriminate].
      destruct d as [d|]; [|discriminate].
      cbn. intros Hrest. apply IH in Hrest as (entries & Hloaded & ->).
      exists (mk_grating_info i (a, b) (c, d) :: entries).
      split; [now constructor|].
      cbn. now rewrite <- app_assoc.
    + cbn. intros Hrest. apply IH in Hrest as (entries & Hloaded & ->).
      exists entries. split; [now constructor|reflexivity].
Qed.

(** When a [Range] has a leaf that is not a number, the loop raises
    the exception of the conversion. *)
Lemma load_gratings_raises gratings :
  forall i (w : World.t Dev),
    existsb malformed_grating gratings = true ->
    exists e w', load_gratings i gratings w = (Raise (Exception e), w').
Proof.
  induction gratings as [|[range] rest IH]; intros i w; cbn [existsb];
    [discriminate|].
  cbn [load_gratings]. unfold bind, malformed_grating. cbn [Range].
  destruct range as [[a b c d]|]; cbn [orb negb].
  - unfold numeric_range. cbn.
    destruct a as [a|e]; [|intros _; now exists e, w].
    destruct b as [b|e]; [|intros _; now exists e, w].
    destruct c as [c|e]; [|intros _; now exists e, w].
    destruct d as [d|e]; [|intros _; now exists e, w].
    cbn. apply IH.
  - cbn. apply IH.
Qed.

(** The steps of [_load_xml_config] once the path is known, on the
    way to a normal return. *)
Ltac load_xml_returns path Hexists Hparse Hfilter Hload :=
  destruct (path_exists host path) eqn:Hexists; [|discriminate];
  cbn [negb]; unfold try_except, bind;
  destruct (ET_parse host path) as [?root|?e|?e] eqn:Hparse; [|discriminate..];
  match goal with
  | |- context [FilterComponent ?root] =>
      destruct (FilterComponent root) as [?Id|] eqn:Hfilter; [|discriminate]
  end;
  cbn [update_self];
  match goal with
  | |- context [load_gratings 0 ?gs ?w1] =>
      destruct (load_gratings 0 gs w1) as [[[]|?e] ?w2] eqn:Hload;
      [|match goal with e : exn |- _ => destruct e; discriminate end]
  end.

(** What a session holds when the constructor returns, and what the
    constructor did on the way. *)
Lemma __init___returns xml_config_path (w w' : World.t Dev) :
  __init__ host xml_config_path w = (Return tt, w') ->
  exists path root Id entries,
    (xml_config_path = Some path
     \/ xml_config_path = None
        /\ exists others, glob_xml_files host = path :: others)
    /\ path_exists host path = true
    /\ ET_parse host path = Parsed root
    /\ FilterComponent root = Some Id
    /\ loaded 0 (Gratings root) entries
    /\ World.self w' = mk_LLTF None None (Some path) entries Id false 550%float
    /\ native_side w' = native_side w
    /\ World.stdout w' = World.stdout w
    /\ World.warnings w' =
       World.warnings w ++
       match xml_config_path, glob_xml_files host with
       | None, first :: _ :: _ =>
           [[Lit "Multiple XML files found: "; FStrList (glob_xml_files host);
             Lit ". Using "; FStr first]]
       | _, _ => []
       end.
Proof.
  unfold __init__, _load_xml_config, bind. cbn [update_self get_self].
  cbn [World.self World.with_self new_LLTF xml_path].
  destruct xml_config_path as [path|].
  - cbn [ret]. load_xml_returns path Hexists Hparse Hfilter Hload.
    intros [= <-]. apply load_gratings_returns in Hload as (entries & Hl & ->).
    exists path, root, Id, entries. cbn.
    repeat split; try assumption; [now left|now rewrite app_nil_r].
  - destruct (glob_xml_files host) as [|first [|second others]] eqn:Hglob.
    + discriminate.
    + cbn [update_self ret World.with_self World.self].
      load_xml_returns first Hexists Hparse Hfilter Hload.
      intros [= <-]. apply load_gratings_returns in Hload as (entries & Hl & ->).
      exists first, root, Id, entries. cbn.
      repeat split; try assumption;
        [right; split; [reflexivity|now exists []]|now rewrite app_nil_r].
    + cbn [update_self ret warn World.with_self World.with_warning World.self].
      load_xml_returns first Hexists Hparse Hfilter Hload.
      intros [= <-]. apply load_gratings_returns in Hload as (entries & Hl & ->).
      exists first, root, Id, entries. cbn.
      repeat split; try assumption.
      right; split; [reflexivity|now exists (second :: others)].
Qed.

(** What [loaded] says of the entries, one at a time. *)
Lemma loaded_bounds i gratings entries :
  loaded i gratings entries ->
  Forall (fun g =>
            i <= index g /\
            nth_error gratings (Z.to_nat (index g - i)) =
            Some {| Range := Some {| RegLower := LeafValue (fst (regular_range g));
                                     RegUpper := LeafValue (snd (regular_range g));
                                     ExtLower := LeafValue (fst (extended_range g));
                                     ExtUpper := LeafValue (snd (extended_range g)) |} |})
         entries.
Proof.
  assert (Hshift : forall i gratings (elem : GratingElem) g,
             i + 1 <= index g ->
             nth_error gratings (Z.to_nat (index g - (i + 1))) =
             nth_error (elem :: gratings) (Z.to_nat (index g - i))).
  { intros j gs elem g Hle.
    replace (Z.to_nat (index g - j)) with (S (Z.to_nat (index g - (j + 1)))) by lia.
    reflexivity. }
  induction 1 as [i|i rest entries _ IH|i a b c d rest entries _ IH].
  - constructor.
  - eapply Forall_impl; [|exact IH]. cbn beta. intros g [Hle Hnth].
    split; [lia|]. now rewrite <- Hshift.
  - constructor.
    + cbn. split; [lia|]. now rewrite Z.sub_diag.
    + eapply Forall_impl; [|exact IH]. cbn beta. intros g [Hle Hnth].
      split; [lia|]. now rewrite <- Hshift.
Qed.

Lemma loaded_increasing i gratings entries :
  loaded i gratings entries ->
  StronglySorted Z.lt (map index entries).
Proof.
  induction 1 as [i|i rest entries _ IH|i a b c d rest entries Hl IH]; cbn [map].
  - constructor.
  - exact IH.
  - constructor; [exact IH|].
    apply Forall_map. eapply Forall_impl; [|exact (loaded_bounds _ _ _ Hl)].
    cbn. intros g [Hle _]. lia.
Qed.

Lemma loaded_complete i gratings entries :
  loaded i gratings entries ->
  forall k r,
    nth_error gratings k = Some {| Range := Some r |} ->
    exists g, In g entries /\ index g = i + Z.of_nat k.
Proof.
  induction 1 as [i|i rest entries _ IH|i a b c d rest entries _ IH]; intros k r.
  - destruct k; discriminate.
  - destruct k as [|k]; [discriminate|]. cbn [nth_error]. intros Hk.
    destruct (IH _ _ Hk) as (g & Hin & Hidx). exists g. split; [exact Hin|lia].
  - destruct k as [|k]; cbn [nth_error].
    + intros _. eexists. split; [now left|cbn; lia].
    + intros Hk. destruct (IH _ _ Hk) as (g & Hin & Hidx).
      exists g. split; [now right|lia].
Qed.

(** A session that the constructor returned is not initialized: it
    holds no handle and no library, [set_wavelength], [get_wavelength]
    and [get_connected_device_count] raise the not-initialized error
    whatever their arguments, and [close] does nothing. *)
Theorem constructed_session_is_not_initialized :
  forall (xml_config_path : option string) (w w' : World.t Dev),
    __init__ host xml_config_path w = (Return tt, w') ->
    handle (World.self w') = None
    /\ dll (World.self w') = None
    /\ (forall wavelength grating,
          set_wavelength host wavelength grating w' =
          (Raise (LLTFError NotInitialized
                    [Lit "Device not initialized. Call initialize() first."]), w'))
    /\ get_wavelength host w' =
       (Raise (LLTFError NotInitialized
                 [Lit "Device not initialized. Call initialize() first."]), w')
    /\ get_connected_device_count host w' =
       (Raise (LLTFError NotInitialized
                 [Lit "Device not initialized. Call initialize() first."]), w')
    /\ close host w' = (Return tt, w').
Proof.
  intros xml_config_path w w' Hinit.
  apply __init___returns in Hinit
    as (path & root & Id & entries & _ & _ & _ & _ & _ & Hself & _).
  unfold set_wavelength, get_wavelength, get_connected_device_count, close,
    bind, get_self.
  rewrite Hself. cbn. repeat split.
Qed.

(** The constructor raises nothing but [LLTFError], and only for the
    configuration: not found, or malformed. *)
Theorem __init___raises_only_configuration_errors :
  forall xml_config_path : option string,
    raises_only is_configuration_error (__init__ host xml_config_path).
Proof.
  intros xml_config_path w e w'.
  unfold __init__, _load_xml_config, bind. cbn [update_self get_self].
  cbn [World.self World.with_self new_LLTF xml_path].
  assert (Htail : forall path (w1 : World.t Dev)
                         (body : M Dev unit) (handler : exn -> M Dev unit),
    (forall e0 w2 r w3, handler e0 w2 = (r, w3) ->
                        exists m, r = Raise (LLTFError ConfigMalformed m)) ->
    (if negb (path_exists host path)
     then raise (LLTFError ConfigNotFound
                   [Lit "XML configuration file not found: "; FStr path])
     else try_except body (fun _ => true) handler) w1 = (Raise e, w') ->
    is_configuration_error e).
  { intros path w1 body handler Hhandler.
    destruct (negb (path_exists host path)).
    - intros [= <- _]. eexists. now left.
    - unfold try_except. destruct (body w1) as [[[]|e0] w2]; [discriminate|].
      intros Hh. destruct (Hhandler _ _ _ _ Hh) as [m [= ->]].
      eexists. now right. }
  assert (Hhandler : forall e0 (w2 : World.t Dev) (r : Result unit) w3,
    match e0 with
    | ET_ParseError _ =>
        raise (LLTFError ConfigMalformed
                 (Lit "Failed to parse XML configuration: " :: str_exn e0))
    | _ =>
        raise (LLTFError ConfigMalformed
                 (Lit "Error reading XML configuration: " :: str_exn e0))
    end w2 = (r, w3) ->
    exists m, r = Raise (LLTFError ConfigMalformed m)).
  { intros e0 w2 r w3. destruct e0; intros [= <- _]; eexists; reflexivity. }
  destruct xml_config_path as [path|].
  - cbn [ret]. apply Htail, Hhandler.
  - destruct (glob_xml_files host) as [|first [|second others]].
    + intros [= <- _]. eexists. now left.
    + cbn [update_self ret World.with_self World.self]. apply Htail, Hhandler.
    + cbn [update_self ret warn World.with_self World.with_warning World.self].
      apply Htail, Hhandler.
Qed.

(** Without a path the constructor scans [xml_files/]: it raises the
    not-found error when the scan finds nothing, and otherwise takes
    the first file found, with one warning when there are several and
    none when there is one.  With a path it takes that path and never
    warns, whatever the directory holds. *)
Theorem __init___chooses_the_configuration_file :
  forall w : World.t Dev,
    (glob_xml_files host = [] ->
     fst (__init__ host None w) =
     Raise (LLTFError ConfigNotFound
              [Lit "No XML configuration files found. Please provide xml_config_path or place XML file in xml_files directory."]))
    /\
    (forall w',
        __init__ host None w = (Return tt, w') ->
        exists first others,
          glob_xml_files host = first :: others
          /\ xml_path (World.self w') = Some first
          /\ World.warnings w' =
             World.warnings w ++
             match others with
             | [] => []
             | _ :: _ => [[Lit "Multiple XML files found: ";
                           FStrList (first :: others);
                           Lit ". Using "; FStr first]]
             end)
    /\
    (forall path w',
        __init__ host (Some path) w = (Return tt, w') ->
        xml_path (World.self w') = Some path
        /\ World.warnings w' = World.warnings w).
Proof.
  intros w. split; [|split].
  - intros Hglob. unfold __init__, _load_xml_config, bind. cbn. now rewrite Hglob.
  - intros w' Hinit.
    apply __init___returns in Hinit
      as (path & root & Id & entries & Hpath & _ & _ & _ & _ & Hself & _ & _ & Hwarn).
    destruct Hpath as [[=]|[_ [others Hglob]]].
    exists path, others. rewrite Hself, Hwarn, Hglob.
    repeat split.
  - intros path w' Hinit.
    apply __init___returns in Hinit
      as (path' & root & Id & entries & Hpath & _ & _ & _ & _ & Hself & _ & _ & Hwarn).
    destruct Hpath as [[= <-]|[[=] _]].
    rewrite Hself, Hwarn. split; [reflexivity|apply app_nil_r].
Qed.

(** The index of a loaded grating is the position of its [Grating]
    element in the document, counted from 0 over all [Grating]
    elements, those without a [Range] included: every entry holds the
    four numbers of the element at that position, every element with a
    [Range] has its entry, and the entries are stored by increasing
    index. *)
Theorem grating_index_is_document_position :
  forall (xml_config_path : option string) (w w' : World.t Dev),
    __init__ host xml_config_path w = (Return tt, w') ->
    exists path root,
      xml_path (World.self w') = Some path
      /\ ET_parse host path = Parsed root
      /\ Forall (loaded_from (Gratings root)) (grating_ranges (World.self w'))
      /\ (forall k r,
            nth_error (Gratings root) k = Some {| Range := Some r |} ->
            exists g, In g (grating_ranges (World.self w'))
                      /\ index g = Z.of_nat k)
      /\ StronglySorted Z.lt (map index (grating_ranges (World.self w'))).
Proof.
  intros xml_config_path w w' Hinit.
  apply __init___returns in Hinit
    as (path & root & Id & entries & _ & _ & Hparse & _ & Hloaded & Hself & _).
  exists path, root. rewrite Hself. cbn [xml_path grating_ranges].
  split; [reflexivity|]. split; [exact Hparse|]. split; [|split].
  - eapply Forall_impl; [|exact (loaded_bounds _ _ _ Hloaded)].
    cbn beta. intros g [Hle Hnth]. split; [exact Hle|].
    now rewrite Z.sub_0_r in Hnth.
  - intros k r Hk. exact (loaded_complete _ _ _ Hloaded k r Hk).
  - exact (loaded_increasing _ _ _ Hloaded).
Qed.

(** The constructor refuses a configuration it cannot read, for a
    path given explicitly: a missing file, a file that does not parse,
    a document without a [Filter] component (the error raised inside
    the [try] is caught and wrapped again), and a [Range] with a bound
    that is not a number. *)
Theorem __init___refuses_unreadable_configuration :
  forall (path : string) (w : World.t Dev),
    (path_exists host path = false ->
     fst (__init__ host (Some path) w) =
     Raise (LLTFError ConfigNotFound
              [Lit "XML configuration file not found: "; FStr path]))
    /\
    (forall e,
        path_exists host path = true ->
        ET_parse host path = ParseError e ->
        fst (__init__ host (Some path) w) =
        Raise (LLTFError ConfigMalformed
                 [Lit "Failed to parse XML configuration: "; FStr e]))
    /\
    (forall root,
        path_exists host path = true ->
        ET_parse host path = Parsed root ->
        FilterComponent root = None ->
        fst (__init__ host (Some path) w) =
        Raise (LLTFError ConfigMalformed
                 [Lit "Error reading XML configuration: ";
                  Lit "Could not find Filter component in XML configuration"]))
    /\
    (forall root Id,
        path_exists host path = true ->
        ET_parse host path = Parsed root ->
        FilterComponent root = Some Id ->
        existsb malformed_grating (Gratings root) = true ->
        exists e,
          fst (__init__ host (Some path) w) =
          Raise (LLTFError ConfigMalformed
                   [Lit "Error reading XML configuration: "; FStr e])).
Proof.
  intros path w.
  unfold __init__, _load_xml_config, bind. cbn [update_self get_self].
  cbn [World.self World.with_self new_LLTF xml_path ret].
  split; [|split; [|split]].
  - intros ->. reflexivity.
  - intros e -> ->. reflexivity.
  - intros root -> -> ->. reflexivity.
  - intros root Id -> -> -> Hbad. cbn [negb].
    unfold try_except, bind. cbn [update_self].
    match goal with
    | |- context [load_gratings 0 ?gs ?w1] =>
        destruct (load_gratings_raises gs 0 w1 Hbad) as (e & w2 & ->)
    end.
    exists e. reflexivity.
Qed.

End Constructor.

(** ** Sessions on the vendor library *)

Section Hardware.

Variable Dev : Type.
Variable host : Host Dev.

Lemma _check_status_success operation (w : World.t Dev) :
  _check_status PE_SUCCESS operation w = (Return tt, w).
Proof. reflexivity. Qed.

Lemma _check_status_failure status operation (w : World.t Dev) :
  status <> PE_SUCCESS ->
  _check_status status operation w =
  (Raise (LLTFError (NativeStatusFailure status)
            (operation ++ [Lit " failed with status "; FInt status] ++
             match error_descriptions status with
             | Some description => [Lit ": "; Lit description]
             | None => []
             end)), w).
Proof.
  intros Hstatus. unfold _check_status.
  apply Z.eqb_neq in Hstatus. rewrite Hstatus. cbn [negb].
  destruct (error_descriptions status).
  - now rewrite <- app_assoc.
  - now rewrite app_nil_r.
Qed.

(** Where the loops of the selection can end. *)
Lemma for_regular_range_ends wavelength gratings (otherwise : M Dev Z)
      (w : World.t Dev) (P : World.t Dev -> Prop) :
  P w ->
  (forall r w', otherwise w = (r, w') -> P w') ->
  forall r w', for_regular_range wavelength gratings otherwise w = (r, w') -> P w'.
Proof.
  intros Hhere Hother. induction gratings as [|g gs IH]; [exact Hother|].
  intros r w'. rewrite for_regular_range_cons.
  destruct (in_regular_range wavelength g); [|apply IH].
  unfold ret. now intros [= _ <-].
Qed.

Lemma for_extended_range_ends wavelength gratings (otherwise : M Dev Z)
      (w : World.t Dev) (P : World.t Dev -> Prop) :
  (forall message, P (World.with_warning w message)) ->
  (forall r w', otherwise w = (r, w') -> P w') ->
  forall r w', for_extended_range wavelength gratings otherwise w = (r, w') -> P w'.
Proof.
  intros Hwarned Hother. induction gratings as [|g gs IH]; [exact Hother|].
  intros r w'. rewrite for_extended_range_cons.
  destruct (in_extended_range wavelength g); [|apply IH].
  unfold bind, warn, ret. intros [= _ <-]. apply Hwarned.
Qed.

(** Selection leaves the world as it is, or adds one warning. *)
Lemma select_grating_only_warns wavelength (w w' : World.t Dev) r :
  _select_grating_for_wavelength wavelength w = (r, w') ->
  w' = w \/ exists message, w' = World.with_warning w message.
Proof.
  unfold _select_grating_for_wavelength, bind, get_self.
  set (P := fun w0 : World.t Dev =>
              w0 = w \/ exists message, w0 = World.with_warning w message).
  apply (for_regular_range_ends _ _ _ w P); [now left|].
  apply (for_extended_range_ends _ _ _ w P).
  - intros message. right. now exists message.
  - unfold raise. intros r0 w0 [= _ <-]. now left.
Qed.

(** [initialize(simulate=False)], step by step.  When the library
    cannot be loaded it raises before any native call, and leaves
    handle and library as they were.  When [PE_Create] fails it raises
    without calling [PE_Open], and the session holds the handle that
    [PE_Create] wrote.  When [PE_Create] succeeds and the
    configuration names the system, [PE_Open] is called on the new
    handle and decides the outcome; when it names none, [PE_Open] is
    not called and [initialize] returns. *)
Theorem initialize_on_hardware :
  forall w : World.t Dev,
    (forall e,
        load_CDLL host (World.device w) = Some e ->
        initialize host false w =
        (Raise (LLTFError DllLoadFailure
                  [Lit "Failed to load PE_Filter_SDK.dll: "; FStr e]),
         World.with_self w (set_simulate_mode (World.self w) false)))
    /\
    (forall path status address d,
        load_CDLL host (World.device w) = None ->
        xml_path (World.self w) = Some path ->
        PE_Create host path 0 (World.device w) = ((status, address), d) ->
        status <> PE_SUCCESS ->
        exists message w',
          initialize host false w =
          (Raise (LLTFError (NativeStatusFailure status) message), w')
          /\ handle (World.self w') = Some address
          /\ dll (World.self w') = Some PE_Filter_SDK_dll
          /\ World.native_calls w' = World.native_calls w ++ [Call_PE_Create path])
    /\
    (forall path address d name status d',
        load_CDLL host (World.device w) = None ->
        xml_path (World.self w) = Some path ->
        PE_Create host path 0 (World.device w) = ((PE_SUCCESS, address), d) ->
        system_name (World.self w) = Some name ->
        name <> "" ->
        PE_Open host address name d = (status, d') ->
        exists r w',
          initialize host false w = (r, w')
          /\ (status = PE_SUCCESS -> r = Return tt)
          /\ (status <> PE_SUCCESS ->
              exists message, r = Raise (LLTFError (NativeStatusFailure status) message))
          /\ handle (World.self w') = Some address
          /\ dll (World.self w') = Some PE_Filter_SDK_dll
          /\ simulate_mode (World.self w') = false
          /\ World.device w' = d'
          /\ World.native_calls w' =
             World.native_calls w ++ [Call_PE_Create path; Call_PE_Open address name])
    /\
    (forall path address d,
        load_CDLL host (World.device w) = None ->
        xml_path (World.self w) = Some path ->
        PE_Create host path 0 (World.device w) = ((PE_SUCCESS, address), d) ->
        system_name (World.self w) = None \/ system_name (World.self w) = Some "" ->
        exists w',
          initialize host false w = (Return tt, w')
          /\ handle (World.self w') = Some address
          /\ World.native_calls w' = World.native_calls w ++ [Call_PE_Create path]).
Proof.
  intros w. unfold initialize, _load_dll, bind, update_self, get_self.
  cbn [World.self World.with_self World.device simulate_mode set_simulate_mode].
  split; [|split; [|split]].
  - intros e ->. reflexivity.
  - intros path status address d -> Hpath Hcreate Hstatus.
    unfold raise, dll_call. cbn. rewrite Hpath. cbn. rewrite Hcreate. cbn.
    rewrite (_check_status_failure _ _ _ Hstatus).
    do 2 eexists. split; [reflexivity|]. cbn. repeat split.
  - intros path address d name status d' -> Hpath Hcreate Hname Hnonempty Hopen.
    unfold raise, dll_call. cbn. rewrite Hpath. cbn. rewrite Hcreate. cbn. rewrite Hname.
    destruct name as [|c name]; [now elim Hnonempty|].
    cbn. rewrite Hopen.
    destruct (Z.eq_dec status PE_SUCCESS) as [->|Hstatus].
    + do 2 eexists. split; [reflexivity|]. cbn.
      repeat split; try reflexivity. intros H. now elim H.
      now rewrite <- app_assoc.
    + rewrite (_check_status_failure _ _ _ Hstatus).
      do 2 eexists. split; [reflexivity|]. cbn.
      repeat split; try reflexivity.
      * intros ->. now elim Hstatus.
      * intros _. eexists. reflexivity.
      * now rewrite <- app_assoc.
  - intros path address d -> Hpath Hcreate Hname.
    unfold raise, dll_call. cbn. rewrite Hpath. cbn. rewrite Hcreate. cbn.
    destruct Hname as [-> | ->]; eexists; (split; [reflexivity|]); cbn; repeat split.
Qed.

(** On the vendor library, [get_wavelength] returns the double that
    [PE_GetWavelength] wrote when the status is success and raises the
    status otherwise; [get_connected_device_count] returns what
    [PE_GetSystemCount] returns, unchecked.  Each makes exactly its
    one native call and changes nothing of the object. *)
Theorem reads_on_hardware :
  forall (w : World.t Dev) (h : Z),
    simulate_mode (World.self w) = false ->
    handle (World.self w) = Some h ->
    dll (World.self w) <> None ->
    (forall status x d,
        PE_GetWavelength host h 0%float (World.device w) = ((status, x), d) ->
        (status = PE_SUCCESS ->
         get_wavelength host w =
         (Return x, World.with_device w d (Call_PE_GetWavelength h)))
        /\
        (status <> PE_SUCCESS ->
         exists message,
           get_wavelength host w =
           (Raise (LLTFError (NativeStatusFailure status) message),
            World.with_device w d (Call_PE_GetWavelength h))))
    /\
    (forall count d,
        PE_GetSystemCount host h (World.device w) = (count, d) ->
        get_connected_device_count host w =
        (Return count, World.with_device w d (Call_PE_GetSystemCount h))).
Proof.
  intros w h Hsim Hh Hl.
  destruct (dll (World.self w)) as [l|] eqn:Hd; [clear Hl|now elim Hl].
  unfold get_wavelength, get_connected_device_count, bind, get_self, dll_call.
  rewrite Hsim, Hh, Hd. split.
  - intros status x d ->. split.
    + intros ->. reflexivity.
    + intros Hstatus. rewrite (_check_status_failure _ _ _ Hstatus).
      eexists. reflexivity.
  - intros count d ->. reflexivity.
Qed.

(** On the vendor library, [set_wavelength] without a grating sends
    the wavelength to the device on the grating that the selection
    found in the regular ranges, in one native call; it returns when
    the status is success and raises the status otherwise, and the
    object is not changed. *)
Theorem set_wavelength_on_hardware :
  forall (w : World.t Dev) (h : Z) (wavelength : float) (grating : grating_info)
         (status : Z) (d : Dev),
    simulate_mode (World.self w) = false ->
    handle (World.self w) = Some h ->
    dll (World.self w) <> None ->
    first_match (in_regular_range wavelength)
                (grating_ranges (World.self w)) grating ->
    index grating = 0 \/ index grating = 1 ->
    PE_SetWavelengthOnGrating host h (index grating) wavelength (World.device w) =
    (status, d) ->
    (status = PE_SUCCESS ->
     set_wavelength host wavelength None w =
     (Return tt,
      World.with_device w d
        (Call_PE_SetWavelengthOnGrating h (index grating) wavelength)))
    /\
    (status <> PE_SUCCESS ->
     exists message,
       set_wavelength host wavelength None w =
       (Raise (LLTFError (NativeStatusFailure status)
                 ([Lit "PE_SetWavelengthOnGrating(grating="; FInt (index grating);
                   Lit ")"; Lit " failed with status "; FInt status] ++ message)),
        World.with_device w d
          (Call_PE_SetWavelengthOnGrating h (index grating) wavelength))).
Proof.
  intros w h wavelength grating status d Hsim Hh Hl Hfirst Hindex Hset.
  destruct (dll (World.self w)) as [l|] eqn:Hd; [clear Hl|now elim Hl].
  unfold set_wavelength, bind, get_self. rewrite Hh.
  unfold _select_grating_for_wavelength, bind, get_self.
  rewrite (for_regular_range_first_match _ _ _ _ _ Hfirst). unfold ret.
  replace (negb ((index grating =? 0) || (index grating =? 1))) with false
    by (destruct Hindex as [-> | ->]; reflexivity).
  rewrite Hsim. unfold dll_call. rewrite Hd, Hset. split.
  - intros ->. reflexivity.
  - intros Hstatus. rewrite (_check_status_failure _ _ _ Hstatus).
    eexists. reflexivity.
Qed.

(** The grating that the selection finds is checked like an explicit
    one: when its index is neither 0 nor 1, as for the third grating
    of a configuration, [set_wavelength] without a grating raises the
    invalid-grating error although the wavelength is in range.
    Nothing is sent to the device and the simulated wavelength is not
    changed; the extended-range warning, when there is one, has been
    emitted. *)
Theorem selected_grating_must_be_0_or_1 :
  forall (w : World.t Dev) (wavelength : float) (grating : grating_info),
    initialized (World.self w) ->
    index grating <> 0 ->
    index grating <> 1 ->
    (first_match (in_regular_range wavelength)
                 (grating_ranges (World.self w)) grating ->
     set_wavelength host wavelength None w =
     (Raise (LLTFError InvalidGrating
               [Lit "Invalid grating index: "; FInt (index grating);
                Lit ". Must be 0 or 1."]), w))
    /\
    (no_match (in_regular_range wavelength) (grating_ranges (World.self w)) ->
     first_match (in_extended_range wavelength)
                 (grating_ranges (World.self w)) grating ->
     set_wavelength host wavelength None w =
     (Raise (LLTFError InvalidGrating
               [Lit "Invalid grating index: "; FInt (index grating);
                Lit ". Must be 0 or 1."]),
      World.with_warning w
        [Lit "Wavelength "; FFloat wavelength;
         Lit " nm is in extended range for grating "; FInt (index grating)])).
Proof.
  intros w wavelength grating Hinit H0 H1.
  destruct (handle (World.self w)) as [h|] eqn:Hh; [|now elim Hinit].
  apply Z.eqb_neq in H0, H1.
  unfold set_wavelength, bind, get_self. rewrite Hh.
  unfold _select_grating_for_wavelength, bind, get_self. split.
  - intros Hfirst.
    rewrite (for_regular_range_first_match _ _ _ _ _ Hfirst). unfold ret.
    now rewrite H0, H1.
  - intros Hno Hfirst.
    rewrite (for_regular_range_no_match _ _ _ _ Hno).
    rewrite (for_extended_range_first_match _ _ _ _ _ Hfirst).
    unfold bind, warn, ret. now rewrite H0, H1.
Qed.

End Hardware.

(** ** What the methods keep *)

Section Invariants.

Variable Dev : Type.
Variable host : Host Dev.

Lemma same_on_refl {X} (proj : World.t Dev -> X) w : same_on proj w w.
Proof. reflexivity. Qed.

Lemma same_on_trans {X} (proj : World.t Dev -> X) w1 w2 w3 :
  same_on proj w1 w2 -> same_on proj w2 w3 -> same_on proj w1 w3.
Proof. unfold same_on. congruence. Qed.

Lemma keeps_get_self_on {X} (proj : LLTF -> X) :
  keeps (same_self_on proj) (get_self : M Dev LLTF).
Proof. intros w r w' [= _ <-]. reflexivity. Qed.

Lemma keeps_update_self_on {X} (proj : LLTF -> X) (f : LLTF -> LLTF) :
  (forall s, proj (f s) = proj s) ->
  keeps (same_self_on proj) (update_self f : M Dev unit).
Proof. intros Hf w r w' [= _ <-]. apply Hf. Qed.

Lemma keeps_print_on {X} (proj : LLTF -> X) line :
  keeps (same_self_on proj) (print line : M Dev unit).
Proof. intros w r w' [= _ <-]. reflexivity. Qed.

Lemma keeps_warn_on {X} (proj : LLTF -> X) message :
  keeps (same_self_on proj) (warn message : M Dev unit).
Proof. intros w r w' [= _ <-]. reflexivity. Qed.

Lemma keeps_dll_call_on {X A} (proj : LLTF -> X) f c (run : Dev -> A * Dev) :
  keeps (same_self_on proj) (dll_call f c run).
Proof.
  intros w r w'. unfold dll_call. destruct (dll (World.self w)).
  - destruct (run (World.device w)). intros [= _ <-]. reflexivity.
  - intros [= _ <-]. reflexivity.
Qed.

Lemma keeps_for_regular_range {X} (proj : LLTF -> X) wavelength gratings
      (otherwise : M Dev Z) :
  keeps (same_self_on proj) otherwise ->
  keeps (same_self_on proj) (for_regular_range wavelength gratings otherwise).
Proof.
  intros Hother. induction gratings as [|g gs IH]; [exact Hother|].
  rewrite for_regular_range_cons.
  destruct (in_regular_range wavelength g); [|exact IH].
  apply keeps_ret. intros w. reflexivity.
Qed.

Lemma keeps_for_extended_range {X} (proj : LLTF -> X) wavelength gratings
      (otherwise : M Dev Z) :
  keeps (same_self_on proj) otherwise ->
  keeps (same_self_on proj) (for_extended_range wavelength gratings otherwise).
Proof.
  intros Hother. induction gratings as [|g gs IH]; [exact Hother|].
  rewrite for_extended_range_cons.
  destruct (in_extended_range wavelength g); [|exact IH].
  intros w r w' [= _ <-]. reflexivity.
Qed.

Lemma keeps__load_dll {X} (proj : LLTF -> X) :
  (forall s v, proj (set_dll s v) = proj s) ->
  keeps (same_self_on proj) (_load_dll host).
Proof.
  intros Hdll w r w'. unfold _load_dll, bind, get_self.
  destruct (simulate_mode (World.self w)).
  - intros [= _ <-]. reflexivity.
  - destruct (load_CDLL host (World.device w)); intros [= _ <-];
      [reflexivity|apply Hdll].
Qed.

(** Cuts a computation into its steps, down to the assignments. *)
Ltac frame :=
  repeat first
    [ apply keeps__load_dll; intros ? ?; reflexivity
    | apply keeps_bind; [apply same_on_trans| |intros ?]
    | apply keeps_ret; apply same_on_refl
    | apply keeps_raise; apply same_on_refl
    | apply keeps_try_except; [apply same_on_trans| |intros ?]
    | apply keeps_get_self_on
    | apply keeps_update_self_on; intros ?; reflexivity
    | apply keeps_print_on
    | apply keeps_warn_on
    | apply keeps_dll_call_on
    | apply keeps_for_regular_range
    | apply keeps_for_extended_range
    | match goal with
      | |- keeps _ (if ?b then _ else _) => destruct b
      | |- keeps _ (match ?x with _ => _ end) => destruct x
      end ].

(** No method call changes what the constructor read of the
    configuration. *)
Lemma invoke_keeps_configuration (c : method_call) :
  keeps (same_self_on configuration_of) (invoke host c).
Proof.
  destruct c; cbn [invoke];
    unfold initialize, get_connected_device_count, get_wavelength, set_wavelength,
      get_grating_ranges, close, _select_grating_for_wavelength, _check_status;
    frame.
Qed.

(** The configuration is immutable: through any sequence of method
    calls, whatever their arguments and whether they return or raise,
    the session keeps the path, the grating ranges and the system
    name that the constructor loaded. *)
Theorem configuration_is_immutable :
  forall (calls : list method_call) (w : World.t Dev),
    configuration (run_calls host calls w) = configuration w.
Proof.
  induction calls as [|c calls IH]; intros w; cbn [run_calls]; [reflexivity|].
  rewrite IH. destruct (invoke host c w) as [r w'] eqn:Hc.
  exact (invoke_keeps_configuration c _ _ _ Hc).
Qed.

(** [set_wavelength] in simulation mode, whatever its outcome. *)
Lemma set_wavelength_simulated wavelength grating (w w' : World.t Dev) r :
  simulate_mode (World.self w) = true ->
  set_wavelength host wavelength grating w = (r, w') ->
  simulate_mode (World.self w') = true /\ native_side w' = native_side w.
Proof.
  intros Hsim. unfold set_wavelength, bind, get_self.
  destruct (handle (World.self w)) as [h|]; [|intros [= _ <-]; now split].
  rewrite Hsim. destruct grating as [g|].
  - unfold ret. destruct (negb ((g =? 0) || (g =? 1))); intros [= _ <-]; now split.
  - destruct (_select_grating_for_wavelength wavelength w) as [[g|e] w1] eqn:Hsel.
    + assert (Hsim1 : simulate_mode (World.self w1) = true)
        by now rewrite (select_grating_self _ _ _ _ _ Hsel).
      assert (Hnative : native_side w1 = native_side w).
      { destruct (select_grating_only_warns _ _ _ _ _ Hsel) as [->|[m ->]];
          reflexivity. }
      destruct (negb ((g =? 0) || (g =? 1))); intros [= _ <-]; now split.
    + intros [= _ <-]. split.
      * now rewrite (select_grating_self _ _ _ _ _ Hsel).
      * destruct (select_grating_only_warns _ _ _ _ _ Hsel) as [->|[m ->]];
          reflexivity.
Qed.

(** One call in simulation mode, other than [initialize(simulate=False)]. *)
Lemma invoke_simulated (c : method_call) (w w' : World.t Dev) r :
  simulate_mode (World.self w) = true ->
  c <> Call_initialize false ->
  invoke host c w = (r, w') ->
  simulate_mode (World.self w') = true /\ native_side w' = native_side w.
Proof.
  intros Hsim Hc. destruct c as [[|]| | |wavelength grating| |]; cbn [invoke]; unfold bind.
  - rewrite initialize_simulate. unfold ret. intros [= _ <-]. now split.
  - now elim Hc.
  - unfold get_connected_device_count, bind, get_self. rewrite Hsim.
    unfold ret. intros [= _ <-]. now split.
  - unfold get_wavelength, bind, get_self. rewrite Hsim.
    unfold ret. intros [= _ <-]. now split.
  - destruct (set_wavelength host wavelength grating w) as [[[]|e] w1] eqn:Hset;
      unfold ret; intros [= _ <-];
      exact (set_wavelength_simulated _ _ _ _ _ Hsim Hset).
  - unfold get_grating_ranges, bind, get_self, ret. intros [= _ <-]. now split.
  - rewrite (close_simulated _ _ _ Hsim). unfold ret. intros [= _ <-]. now split.
Qed.

(** A session in simulation mode never reaches the vendor library:
    through any sequence of method calls that does not initialize it on
    the hardware, no native call is made, the device is left as it
    was, and the session stays in simulation mode, [close] included. *)
Theorem simulation_never_calls_the_library :
  forall (calls : list method_call) (w : World.t Dev),
    simulate_mode (World.self w) = true ->
    Forall (fun c => c <> Call_initialize false) calls ->
    World.native_calls (run_calls host calls w) = World.native_calls w
    /\ World.device (run_calls host calls w) = World.device w
    /\ simulate_mode (World.self (run_calls host calls w)) = true.
Proof.
  induction calls as [|c calls IH]; intros w Hsim Hcalls; cbn [run_calls].
  - now repeat split.
  - inversion Hcalls as [|c' calls' Hc Hrest]; subst.
    destruct (invoke host c w) as [r w'] eqn:Hinvoke. cbn [snd].
    destruct (invoke_simulated _ _ _ _ Hsim Hc Hinvoke) as [Hsim' Hnative].
    destruct (IH w' Hsim' Hrest) as (H1 & H2 & H3).
    injection Hnative as Hdev Hcalls'.
    repeat split; congruence.
Qed.

(** The real branch of [set_wavelength] keeps the simulated wavelength. *)
Lemma send_keeps_simulated_wavelength h g wavelength :
  keeps (same_self_on simulated_wavelength)
        (status <- dll_call "PE_SetWavelengthOnGrating"
                            (Call_PE_SetWavelengthOnGrating h g wavelength)
                            (PE_SetWavelengthOnGrating host h g wavelength) ;;
         _check_status status
           [Lit "PE_SetWavelengthOnGrating(grating="; FInt g; Lit ")"])%py.
Proof. unfold _check_status. frame. Qed.

(** The simulated wavelength changes in one way only: a
    [set_wavelength] that returns in simulation mode stores its
    argument.  Every other call, and every call on the hardware or
    that raises, leaves it as it was. *)
Theorem simulated_wavelength_changes_only_by_simulated_set :
  forall (c : method_call) (w w' : World.t Dev) (r : Result value),
    invoke host c w = (r, w') ->
    simulated_wavelength (World.self w') = simulated_wavelength (World.self w)
    \/ exists wavelength grating,
         c = Call_set_wavelength wavelength grating
         /\ simulate_mode (World.self w) = true
         /\ r = Return VNone
         /\ simulated_wavelength (World.self w') = wavelength.
Proof.
  intros c w w' r.
  assert (Hframe : keeps (same_self_on simulated_wavelength) (invoke host c) ->
                   invoke host c w = (r, w') ->
                   simulated_wavelength (World.self w') =
                   simulated_wavelength (World.self w)).
  { intros Hkeeps Hc. exact (Hkeeps _ _ _ Hc). }
  destruct c as [simulate| | |wavelength grating| |];
    try solve [intros Hc; left; revert Hc; apply Hframe; cbn [invoke];
               unfold initialize, get_connected_device_count, get_wavelength,
                 get_grating_ranges, close, _check_status; frame].
  clear Hframe. cbn [invoke]. unfold bind at 1.
  destruct (set_wavelength host wavelength grating w) as [[[]|e] w1] eqn:Hset;
    unfold ret; intros [= <- <-].
  - revert Hset. unfold set_wavelength, bind, get_self.
    destruct (handle (World.self w)) as [h|]; [|discriminate].
    assert (Hrest : forall g (w0 : World.t Dev),
      World.self w0 = World.self w ->
      (if negb ((g =? 0) || (g =? 1))
       then raise (LLTFError InvalidGrating
                     [Lit "Invalid grating index: "; FInt g; Lit ". Must be 0 or 1."])
       else if simulate_mode (World.self w)
            then (update_self (fun s => set_simulated_wavelength s wavelength) ;;
                  print [Lit "LLTF: Set wavelength to "; FFloat wavelength;
                         Lit " nm (simulation)"])%py
            else (status <- dll_call "PE_SetWavelengthOnGrating"
                                     (Call_PE_SetWavelengthOnGrating h g wavelength)
                                     (PE_SetWavelengthOnGrating host h g wavelength) ;;
                  _check_status status
                    [Lit "PE_SetWavelengthOnGrating(grating="; FInt g; Lit ")"])%py)
        w0 = (Return tt, w1) ->
      simulated_wavelength (World.self w1) = simulated_wavelength (World.self w)
      \/ exists wavelength0 grating0,
           Call_set_wavelength wavelength grating =
           Call_set_wavelength wavelength0 grating0
           /\ simulate_mode (World.self w) = true
           /\ Return VNone = Return VNone
           /\ simulated_wavelength (World.self w1) = wavelength0).
    { intros g w0 Hself.
      destruct (negb ((g =? 0) || (g =? 1))); [discriminate|].
      destruct (simulate_mode (World.self w)).
      - intros [= <-]. right. exists wavelength, grating. now repeat split.
      - intros Hsend. left.
        rewrite <- Hself. exact (send_keeps_simulated_wavelength _ _ _ _ _ _ Hsend). }
    destruct grating as [g|].
    + unfold ret. now apply Hrest.
    + destruct (_select_grating_for_wavelength wavelength w) as [[g|e] w0] eqn:Hsel;
        [|discriminate].
      apply Hrest. exact (select_grating_self _ _ _ _ _ Hsel).
  - left. revert Hset. unfold set_wavelength, bind, get_self.
    destruct (handle (World.self w)) as [h|]; [|now intros [= _ <-]].
    assert (Hrest : forall g (w0 : World.t Dev),
      World.self w0 = World.self w ->
      (if negb ((g =? 0) || (g =? 1))
       then raise (LLTFError InvalidGrating
                     [Lit "Invalid grating index: "; FInt g; Lit ". Must be 0 or 1."])
       else if simulate_mode (World.self w)
            then (update_self (fun s => set_simulated_wavelength s wavelength) ;;
                  print [Lit "LLTF: Set wavelength to "; FFloat wavelength;
                         Lit " nm (simulation)"])%py
            else (status <- dll_call "PE_SetWavelengthOnGrating"
                                     (Call_PE_SetWavelengthOnGrating h g wavelength)
                                     (PE_SetWavelengthOnGrating host h g wavelength) ;;
                  _check_status status
                    [Lit "PE_SetWavelengthOnGrating(grating="; FInt g; Lit ")"])%py)
        w0 = (Raise e, w1) ->
      simulated_wavelength (World.self w1) = simulated_wavelength (World.self w)).
    { intros g w0 Hself.
      destruct (negb ((g =? 0) || (g =? 1))); [intros [= _ <-]; now rewrite Hself|].
      destruct (simulate_mode (World.self w)); [discriminate|].
      intros Hsend.
      rewrite <- Hself. exact (send_keeps_simulated_wavelength _ _ _ _ _ _ Hsend). }
    destruct grating as [g|].
    + unfold ret. now apply Hrest.
    + destruct (_select_grating_for_wavelength wavelength w) as [[g|e0] w0] eqn:Hsel.
      * apply Hrest. exact (select_grating_self _ _ _ _ _ Hsel).
      * intros [= _ <-]. now rewrite (select_grating_self _ _ _ _ _ Hsel).
Qed.

(** A [with] block closes the session on every exit path.  When the
    body ends, by returning or by raising, on a session in real mode
    whose library is loaded, the block ends the same way, with the
    same value or the same exception, and the handle is [None]
    afterwards.  When the body ends in simulation mode the block ends
    the same way and the object is as the body left it. *)
Theorem with_statement_closes_the_session :
  forall (A : Type) (body : M Dev A) (w w2 : World.t Dev) (r : Result A),
    body w = (r, w2) ->
    (simulate_mode (World.self w2) = false ->
     dll (World.self w2) <> None ->
     exists w3,
       with_statement host body w = (r, w3)
       /\ handle (World.self w3) = None)
    /\
    (simulate_mode (World.self w2) = true ->
     exists w3,
       with_statement host body w = (r, w3)
       /\ World.self w3 = World.self w2).
Proof.
  intros A body w w2 r Hbody. unfold with_statement, __enter__, __exit__, ret.
  rewrite Hbody. split.
  - intros Hsim Hl.
    assert (Hclose : exists w3, close host w2 = (Return tt, w3)
                                /\ handle (World.self w3) = None).
    { destruct (handle (World.self w2)) as [h|] eqn:Hh.
      - destruct (dll (World.self w2)) as [l|] eqn:Hd; [|now elim Hl].
        rewrite (close_loaded _ _ _ _ _ Hsim Hh Hd). eexists. split; reflexivity.
      - rewrite (close_no_handle _ _ _ Hsim Hh). eexists. split; [reflexivity|exact Hh]. }
    destruct Hclose as (w3 & -> & Hnone).
    exists w3. split; [now destruct r|exact Hnone].
  - intros Hsim. rewrite (close_simulated _ _ _ Hsim).
    eexists. split; [now destruct r|reflexivity].
Qed.

End Invariants.

(** ** After [close] *)

Section AfterClose.

Variable Dev : Type.
Variable host : Host Dev.

(** What a closed session answers.  After a [close] in real mode the
    session is back to not initialized: [get_wavelength],
    [set_wavelength] and [get_connected_device_count] raise the
    not-initialized error.  After a [close] in simulation mode the
    session goes on as before: [get_wavelength] returns the simulated
    wavelength, [get_connected_device_count] returns 1, and a session
    that held a handle still holds it. *)
Theorem operations_after_close :
  forall w w' : World.t Dev,
    close host w = (Return tt, w') ->
    (simulate_mode (World.self w) = false ->
     get_wavelength host w' =
     (Raise (LLTFError NotInitialized
               [Lit "Device not initialized. Call initialize() first."]), w')
     /\ get_connected_device_count host w' =
        (Raise (LLTFError NotInitialized
                  [Lit "Device not initialized. Call initialize() first."]), w')
     /\ forall wavelength grating,
          set_wavelength host wavelength grating w' =
          (Raise (LLTFError NotInitialized
                    [Lit "Device not initialized. Call initialize() first."]), w'))
    /\
    (simulate_mode (World.self w) = true ->
     get_wavelength host w' = (Return (simulated_wavelength (World.self w)), w')
     /\ get_connected_device_count host w' = (Return 1, w')
     /\ handle (World.self w') = handle (World.self w)).
Proof.
  intros w w' Hclose. split.
  - intros Hsim.
    assert (Hafter : simulate_mode (World.self w') = false
                     /\ handle (World.self w') = None).
    { destruct (handle (World.self w)) as [h|] eqn:Hh.
      - destruct (dll (World.self w)) as [l|] eqn:Hd.
        + rewrite (close_loaded _ _ _ _ _ Hsim Hh Hd) in Hclose.
          injection Hclose as <-. cbn. now split.
        + rewrite (close_not_loaded _ _ _ _ Hsim Hh Hd) in Hclose. discriminate.
      - rewrite (close_no_handle _ _ _ Hsim Hh) in Hclose.
        injection Hclose as <-. now split. }
    destruct Hafter as [Hsim' Hh'].
    unfold get_wavelength, get_connected_device_count, set_wavelength, bind, get_self.
    rewrite Hsim', Hh'. repeat split.
  - intros Hsim. rewrite (close_simulated _ _ _ Hsim) in Hclose.
    injection Hclose as <-.
    unfold get_wavelength, get_connected_device_count, bind, get_self. cbn.
    rewrite Hsim. repeat split.
Qed.

End AfterClose.

(** ** The simulated state holds no offset *)

Section NoOffset.

Variable Dev : Type.
Variable host : Host Dev.




End NoOffset.

(** ** More of the theorems at work *)

(** The bench session, before it is initialized. *)
Lemma constructed_session_is_not_initialized_bench :
  __init__ simulation_host None (boot 550%float) = (Return tt, constructed_session)
  /\ handle (World.self constructed_session) = None
  /\ set_wavelength simulation_host 600%float (Some 7) constructed_session =
     (Raise (LLTFError NotInitialized
               [Lit "Device not initialized. Call initialize() first."]),
      constructed_session)
  /\ close simulation_host constructed_session = (Return tt, constructed_session).
Proof.
  assert (Hinit : __init__ simulation_host None (boot 550%float) =
                  (Return tt, constructed_session)) by reflexivity.
  split; [exact Hinit|].
  destruct (constructed_session_is_not_initialized float simulation_host
              None (boot 550%float) constructed_session Hinit)
    as (Hhandle & _ & Hset & _ & _ & Hclose).
  split; [exact Hhandle|]. split; [exact (Hset 600%float (Some 7))|exact Hclose].
Defined.

(** A path that does not exist gives a configuration error. *)
Lemma __init___raises_only_configuration_errors_bench :
  fst (__init__ (field_host PE_SUCCESS) (Some "missing.xml") (boot 550%float)) =
  Raise (LLTFError ConfigNotFound
           [Lit "XML configuration file not found: "; FStr "missing.xml"])
  /\ is_configuration_error
       (LLTFError ConfigNotFound
          [Lit "XML configuration file not found: "; FStr "missing.xml"]).
Proof.
  split; [reflexivity|].
  apply (__init___raises_only_configuration_errors float (field_host PE_SUCCESS)
           (Some "missing.xml") (boot 550%float) _
           (snd (__init__ (field_host PE_SUCCESS) (Some "missing.xml")
                          (boot 550%float)))).
  reflexivity.
Defined.

(** The scan of the field host finds two files: the first is taken,
    with the warning. *)
Lemma __init___chooses_the_configuration_file_bench :
  __init__ (field_host PE_SUCCESS) None (boot 550%float) =
  (Return tt, scanned_session)
  /\ exists first others,
      glob_xml_files (field_host PE_SUCCESS) = first :: others
      /\ xml_path (World.self scanned_session) = Some first
      /\ World.warnings scanned_session =
         World.warnings (boot 550%float) ++
         match others with
         | [] => []
         | _ :: _ => [[Lit "Multiple XML files found: ";
                       FStrList (first :: others);
                       Lit ". Using "; FStr first]]
         end.
Proof.
  assert (Hinit : __init__ (field_host PE_SUCCESS) None (boot 550%float) =
                  (Return tt, scanned_session)) by reflexivity.
  split; [exact Hinit|].
  exact (proj1 (proj2 (__init___chooses_the_configuration_file
                         float (field_host PE_SUCCESS) (boot 550%float)))
               scanned_session Hinit).
Defined.

(** The scanned configuration has a grating without a range between
    two with one: the loaded indices are 0 and 2. *)
Lemma grating_index_is_document_position_bench :
  __init__ (field_host PE_SUCCESS) None (boot 550%float) =
  (Return tt, scanned_session)
  /\ map index (grating_ranges (World.self scanned_session)) = [0; 2]
  /\ exists path root,
      xml_path (World.self scanned_session) = Some path
      /\ ET_parse (field_host PE_SUCCESS) path = Parsed root
      /\ Forall (loaded_from (Gratings root))
                (grating_ranges (World.self scanned_session))
      /\ (forall k r,
            nth_error (Gratings root) k = Some {| Range := Some r |} ->
            exists g, In g (grating_ranges (World.self scanned_session))
                      /\ index g = Z.of_nat k)
      /\ StronglySorted Z.lt (map index (grating_ranges (World.self scanned_session))).
Proof.
  assert (Hinit : __init__ (field_host PE_SUCCESS) None (boot 550%float) =
                  (Return tt, scanned_session)) by reflexivity.
  split; [exact Hinit|]. split; [reflexivity|].
  exact (grating_index_is_document_position float (field_host PE_SUCCESS)
           None (boot 550%float) scanned_session Hinit).
Defined.

(** A configuration with a bound that is not a number. *)
Lemma __init___refuses_unreadable_configuration_bench :
  existsb malformed_grating (Gratings broken_doc) = true
  /\ exists e,
      fst (__init__ (field_host PE_SUCCESS) (Some "broken.xml") (boot 550%float)) =
      Raise (LLTFError ConfigMalformed
               [Lit "Error reading XML configuration: "; FStr e]).
Proof.
  split; [reflexivity|].
  apply (proj2 (proj2 (proj2 (__init___refuses_unreadable_configuration
                                float (field_host PE_SUCCESS) "broken.xml"
                                (boot 550%float))))
               broken_doc (Some "LLTF Contrast M000010263"));
    reflexivity.
Defined.

(** Hardware whose [PE_Create] fails: [PE_Open] is not called. *)
Lemma initialize_on_hardware_bench :
  exists message w',
    initialize (field_host PE_FAILURE) false failing_hardware_session =
    (Raise (LLTFError (NativeStatusFailure PE_FAILURE) message), w')
    /\ handle (World.self w') = Some 4096
    /\ dll (World.self w') = Some PE_Filter_SDK_dll
    /\ World.native_calls w' =
       World.native_calls failing_hardware_session ++ [Call_PE_Create "bench.xml"].
Proof.
  apply (proj1 (proj2 (initialize_on_hardware float (field_host PE_FAILURE)
                         failing_hardware_session))
               "bench.xml" PE_FAILURE 4096 550%float);
    [reflexivity|reflexivity|reflexivity|discriminate].
Defined.

(** The working session reads the wavelength of the device. *)
Lemma reads_on_hardware_bench :
  simulate_mode (World.self working_session) = false
  /\ get_wavelength (field_host PE_SUCCESS) working_session =
     (Return 550%float,
      World.with_device working_session 550%float (Call_PE_GetWavelength 4096)).
Proof.
  split; [reflexivity|].
  apply (proj1 (proj1 (reads_on_hardware float (field_host PE_SUCCESS)
                         working_session 4096 eq_refl eq_refl
                         ltac:(discriminate))
                      PE_SUCCESS 550%float 550%float eq_refl)).
  reflexivity.
Defined.

(** 650 nm on the working session goes to grating 0. *)
Lemma set_wavelength_on_hardware_bench :
  first_match (in_regular_range 650%float)
              (grating_ranges (World.self working_session)) bench_grating_0
  /\ set_wavelength (field_host PE_SUCCESS) 650%float None working_session =
     (Return tt,
      World.with_device working_session 650%float
        (Call_PE_SetWavelengthOnGrating 4096 0 650%float)).
Proof.
  assert (Hfirst : first_match (in_regular_range 650%float)
                     (grating_ranges (World.self working_session)) bench_grating_0).
  { exists [], [bench_grating_1]. repeat split. intros g []. }
  split; [exact Hfirst|].
  apply (proj1 (set_wavelength_on_hardware float (field_host PE_SUCCESS)
                  working_session 4096 650%float bench_grating_0
                  PE_SUCCESS 650%float eq_refl eq_refl ltac:(discriminate)
                  Hfirst (or_introl eq_refl) eq_refl)).
  reflexivity.
Defined.

(** 1200 nm is in the regular range of the third grating only. *)
Lemma selected_grating_must_be_0_or_1_bench :
  first_match (in_regular_range 1200%float)
              (grating_ranges (World.self triple_session)) bench_grating_2
  /\ set_wavelength simulation_host 1200%float None triple_session =
     (Raise (LLTFError InvalidGrating
               [Lit "Invalid grating index: "; FInt 2; Lit ". Must be 0 or 1."]),
      triple_session).
Proof.
  assert (Hfirst : first_match (in_regular_range 1200%float)
                     (grating_ranges (World.self triple_session)) bench_grating_2).
  { exists [bench_grating_0; bench_grating_1], []. repeat split.
    intros g [<-|[<-|[]]]; reflexivity. }
  split; [exact Hfirst|].
  apply (proj1 (selected_grating_must_be_0_or_1 float simulation_host
                  triple_session 1200%float bench_grating_2
                  ltac:(discriminate) ltac:(discriminate) ltac:(discriminate))).
  exact Hfirst.
Defined.

(** A script of eight calls in simulation mode. *)
Lemma simulation_never_calls_the_library_bench :
  simulate_mode (World.self simulated_session) = true
  /\ Forall (fun c => c <> Call_initialize false) simulated_script
  /\ World.native_calls (run_calls simulation_host simulated_script simulated_session)
     = []
  /\ simulated_wavelength
       (World.self (run_calls simulation_host simulated_script simulated_session))
     = 705%float.
Proof.
  assert (Hscript : Forall (fun c => c <> Call_initialize false) simulated_script).
  { repeat constructor; discriminate. }
  split; [reflexivity|]. split; [exact Hscript|]. split; [|reflexivity].
  exact (proj1 (simulation_never_calls_the_library float simulation_host
                  simulated_script simulated_session eq_refl Hscript)).
Defined.

(** A simulated set of 600 nm is the second case. *)
Lemma simulated_wavelength_changes_only_by_simulated_set_bench :
  simulated_wavelength
    (World.self (snd (invoke simulation_host (Call_set_wavelength 600 None)
                             simulated_session))) = 600%float
  /\ (simulated_wavelength
        (World.self (snd (invoke simulation_host (Call_set_wavelength 600 None)
                                 simulated_session))) =
      simulated_wavelength (World.self simulated_session)
      \/ exists wavelength grating,
           Call_set_wavelength 600 None = Call_set_wavelength wavelength grating
           /\ simulate_mode (World.self simulated_session) = true
           /\ Return VNone = Return VNone
           /\ simulated_wavelength
                (World.self (snd (invoke simulation_host (Call_set_wavelength 600 None)
                                         simulated_session))) = wavelength).
Proof.
  split; [reflexivity|].
  apply (simulated_wavelength_changes_only_by_simulated_set float simulation_host
           (Call_set_wavelength 600 None) simulated_session).
  reflexivity.
Defined.

(** A [with] block whose body opens the hardware and then raises:
    the exception comes out of the block and the handle is cleared. *)
Lemma with_statement_closes_the_session_bench :
  fst (failing_body scanned_session) =
  Raise (LLTFError UnsupportedWavelength
           (unsupported_message 2000%float
              (grating_ranges (World.self scanned_session))))
  /\ handle (World.self (snd (failing_body scanned_session))) = Some 4096
  /\ exists w3,
      with_statement (field_host PE_SUCCESS) failing_body scanned_session =
      (Raise (LLTFError UnsupportedWavelength
                (unsupported_message 2000%float
                   (grating_ranges (World.self scanned_session)))), w3)
      /\ handle (World.self w3) = None.
Proof.
  split; [vm_compute; reflexivity|]. split; [vm_compute; reflexivity|].
  assert (Hbody : failing_body scanned_session =
                  (Raise (LLTFError UnsupportedWavelength
                            (unsupported_message 2000%float
                               (grating_ranges (World.self scanned_session)))),
                   snd (failing_body scanned_session)))
    by (vm_compute; reflexivity).
  apply (proj1 (with_statement_closes_the_session float (field_host PE_SUCCESS)
                  unit failing_body scanned_session
                  (snd (failing_body scanned_session)) _ Hbody)).
  - vm_compute. reflexivity.
  - vm_compute. discriminate.
Defined.

(** The working session, closed: it has to be initialized again. *)
Lemma operations_after_close_bench :
  simulate_mode (World.self working_session) = false
  /\ fst (close (field_host PE_SUCCESS) working_session) = Return tt
  /\ fst (get_wavelength (field_host PE_SUCCESS)
            (snd (close (field_host PE_SUCCESS) working_session))) =
     Raise (LLTFError NotInitialized
              [Lit "Device not initialized. Call initialize() first."]).
Proof.
  split; [reflexivity|]. split; [reflexivity|].
  rewrite (proj1 (proj1 (operations_after_close float (field_host PE_SUCCESS)
                           working_session
                           (snd (close (field_host PE_SUCCESS) working_session))
                           eq_refl)
                        eq_refl)).
  reflexivity.
Defined.


